(** * Release-notes PDF generator: a shallow embedding of
    [yaml_to_pdf_generator.py] and the properties of its specification.

    The script is one class, [ReleaseNotesPDFGenerator], plus [main].  The
    embedding follows its methods one by one.  Python values are modelled as
    the script uses them:

    - a [str] is a sequence of Unicode code points ([list N]), so that
      [str.strip] removes exactly the characters Python calls whitespace;
    - the parse tree bs4 hands back is an inductive [node];
    - the ReportLab flowables the script builds are an inductive [Flowable],
      and the calls of the page callback on the canvas a list of [CanvasOp];
    - exceptions are the [Raise] case of a [Result];
    - the object state ([self]) is a record passed in and out of the methods
      that touch it, the files and the console a record [World];
    - floats are the kernel's binary64 floats.

    The third-party code the script calls (the bs4 parser, PyYAML, svglib,
    the ReportLab layout engine, Unicode upper-casing) is behind interfaces,
    one type class each: the properties below hold for every implementation
    of them.

    The methods come in two layers.  The first gives what each method
    builds, call by call, when ReportLab accepts every text it is handed.
    The module [Checked] adds ReportLab's own checks: [Paragraph(text,
    style)] parses its text as markup and raises on text it rejects, and
    [doc.build] may raise; there the converter's [except] block runs with
    the blocks built so far, and an exception can leave the method.
    Drawing on the canvas is data in both layers. *)

From Stdlib Require Import List NArith Bool Ascii String Lia PeanoNat.
From Stdlib Require Import DecimalString DecimalNat PrimFloat.
Import ListNotations.

Set Implicit Arguments.
Set Warnings "-register-all,-inexact-float".

(* ================================================================== *)
(** * Python strings *)
(* ================================================================== *)

Module PyStr.

Definition char := N.
Definition str := list char.

(** An ASCII literal of the script, as a [str]. *)
Definition py (s : string) : str :=
  List.map N_of_ascii (list_ascii_of_string s).

Definition lt_sign : char := 60%N.      (* '<' *)
Definition gt_sign : char := 62%N.      (* '>' *)
Definition colon : char := 58%N.        (* ':' *)
Definition quote : char := 34%N.        (* the double quote *)
Definition bullet : char := 8226%N.     (* U+2022, the bullet of the list items *)
Definition space : char := 32%N.

(** Truthiness of a [str]: [if text:]. *)
Definition truthy (s : str) : bool :=
  match s with [] => false | _ :: _ => true end.

Fixpoint eqb (a b : str) : bool :=
  match a, b with
  | [], [] => true
  | x :: a', y :: b' => N.eqb x y && eqb a' b'
  | _, _ => false
  end.

(** [c.isspace()] for one code point: the characters of bidirectional type
    WS, B or S, or of category Zs. *)
Definition isspace (c : char) : bool :=
  ((9 <=? c) && (c <=? 13) || (28 <=? c) && (c <=? 32)
   || (c =? 133) || (c =? 160) || (c =? 5760)
   || (8192 <=? c) && (c <=? 8202)
   || (c =? 8232) || (c =? 8233) || (c =? 8239) || (c =? 8287)
   || (c =? 12288))%N.

Fixpoint lstrip (s : str) : str :=
  match s with
  | [] => []
  | c :: r => if isspace c then lstrip r else s
  end.

Definition rstrip (s : str) : str := rev (lstrip (rev s)).

(** [s.strip()] *)
Definition strip (s : str) : str := rstrip (lstrip s).

Fixpoint startswith (prefix s : str) : bool :=
  match prefix, s with
  | [], _ => true
  | p :: ps, c :: cs => N.eqb p c && startswith ps cs
  | _ :: _, [] => false
  end.

(** [sub in s] *)
Fixpoint contains (sub s : str) : bool :=
  startswith sub s ||
  match s with
  | [] => false
  | _ :: r => contains sub r
  end.

(** [s.split(sep)] for a one-character separator. *)
Fixpoint split (sep : char) (s : str) : list str :=
  match s with
  | [] => [[]]
  | c :: r =>
      if N.eqb c sep then [] :: split sep r
      else match split sep r with
           | h :: t => (c :: h) :: t
           | [] => [[c]]
           end
  end.

(** [str(n)] for a non-negative integer. *)
Definition of_nat (n : nat) : str :=
  py (NilEmpty.string_of_uint (Nat.to_uint n)).

(** [re.sub(r'<[^>]+>', '', s)].  The pattern matches at a ['<'] exactly
    when at least one character other than ['>'] follows and the run of
    such characters ends in a ['>']; matches are taken leftmost and do not
    overlap.  One pass: [pending] holds, reversed, the text read since a
    ['<'] that may still open a match. *)
Fixpoint re_sub_tags_from (pending : option str) (s : str) : str :=
  match s with
  | [] =>
      match pending with
      | None => []
      | Some buf => rev buf
      end
  | c :: r =>
      match pending with
      | None =>
          if N.eqb c lt_sign then re_sub_tags_from (Some [c]) r
          else c :: re_sub_tags_from None r
      | Some buf =>
          if N.eqb c gt_sign then
            match buf with
            | [_] => rev buf ++ c :: re_sub_tags_from None r
            | _ => re_sub_tags_from None r
            end
          else re_sub_tags_from (Some (c :: buf)) r
      end
  end.

Definition re_sub_tags (s : str) : str := re_sub_tags_from None s.

(** The pattern [<[^>]+>] tried at the start of [s]: the text after the
    match, if there is one. *)
Fixpoint after_gt (s : str) : option str :=
  match s with
  | [] => None
  | c :: r => if N.eqb c gt_sign then Some r else after_gt r
  end.

Definition match_tag (s : str) : option str :=
  match s with
  | c :: c2 :: r =>
      if N.eqb c lt_sign && negb (N.eqb c2 gt_sign) then after_gt r else None
  | _ => None
  end.

End PyStr.
Import PyStr.

(** A call into Python code that may raise. *)
Inductive Result (A : Type) : Type :=
| Ok (value : A)
| Raise (message : str).
Arguments Ok {A} value.
Arguments Raise {A} message.

(** What an [except Exception as e] clause of the script can catch. *)
Inductive PyError : Type :=
| LibraryError (message : str)       (* raised inside a library call *)
| MissingReleaseNotesList            (* the script's own ValueError *)
| NoLogoFiles                        (* the script's own Exception *)
| TypeError.                         (* an operator applied to the wrong type *)

(** A line written by [print].  Lines whose text depends on the formatting
    of a Python object keep the object instead. *)
Inductive Line : Type :=
| Text (s : str)
| MetadataRepr (metadata : list (str * str))
| ErrorLine (prefix : str) (e : PyError)
| ScaledLine (svg_path : str) (new_width new_height : float).

(* ================================================================== *)
(** * The bs4 parse tree *)
(* ================================================================== *)

(** A [Tag] with its attribute dictionary and contents, a [NavigableString],
    or a string of a class [get_text] leaves out ([Comment] and the like). *)
Inductive node : Type :=
| NavigableString (text : str)
| Comment (text : str)
| Tag (name : str) (attrs : list (str * str)) (contents : list node).

Module Bs4.

Definition is_tag_named (nm : str) (n : node) : bool :=
  match n with
  | Tag nm' _ _ => PyStr.eqb nm' nm
  | _ => false
  end.

(** [element.get_text()] *)
Fixpoint get_text (n : node) : str :=
  match n with
  | NavigableString s => s
  | Comment _ => []
  | Tag _ _ cs => flat_map get_text cs
  end.

(** [attrs.get(key, default)] on the attribute dictionary. *)
Fixpoint get (attrs : list (str * str)) (key default : str) : str :=
  match attrs with
  | [] => default
  | (k, v) :: rest => if PyStr.eqb k key then v else get rest key default
  end.

(** [element.get(key, default)] on a tag. *)
Definition element_get (element : node) (key default : str) : str :=
  match element with
  | Tag _ attrs _ => get attrs key default
  | _ => default
  end.

(** The tags at and below [n] in document order, each with the names of
    its ancestors, nearest first. *)
Fixpoint walk (ancestors : list str) (n : node) : list (list str * node) :=
  match n with
  | Tag nm _ cs => (ancestors, n) :: flat_map (walk (nm :: ancestors)) cs
  | _ => []
  end.

(** The tags strictly below [n]. *)
Definition descendants (ancestors : list str) (n : node)
  : list (list str * node) :=
  match n with
  | Tag nm _ cs => flat_map (walk (nm :: ancestors)) cs
  | _ => []
  end.

Definition name_in (names : list str) (n : node) : bool :=
  existsb (fun nm => is_tag_named nm n) names.

(** [soup.find_all(names)] *)
Definition find_all (names : list str) (soup : node)
  : list (list str * node) :=
  filter (fun e => name_in names (snd e)) (descendants [] soup).

(** [element.find_all(name, recursive=False)] *)
Definition find_all_direct (nm : str) (element : node) : list node :=
  match element with
  | Tag _ _ cs => filter (is_tag_named nm) cs
  | _ => []
  end.

(** [element.find(name)] *)
Definition find (nm : str) (element : node) : option node :=
  match filter (fun e => is_tag_named nm (snd e)) (descendants [] element) with
  | [] => None
  | e :: _ => Some (snd e)
  end.

End Bs4.

(** The markup parser: [BeautifulSoup(html_content, 'html.parser')] returns
    the document object, a [Tag] named [[document]], or raises. *)
Class MarkupParser := {
  BeautifulSoup : str -> Result node
}.

(* ================================================================== *)
(** * ReportLab flowables *)
(* ================================================================== *)

(** The entries of [self.styles] that [setup_styles] adds.  Fonts, sizes and
    colours of a style play no part below; a style is its name. *)
Inductive StyleName : Type :=
| ReleaseTitle | ReleaseDate | SectionHeader | SubsectionHeader
| ReleaseContent | ListItem | Footer | PageNumber.

(** [Table] keeps its rows of cells; column widths and the [TableStyle]
    commands are presentation only and left out. *)
Inductive Flowable : Type :=
| Paragraph (text : str) (style : StyleName)
| Spacer (width height : float)
| PageBreak
| Table (rows : list (list Flowable)).

Definition inch : float := 72%float.

(** The blocks of the specification's data model, and the block a flowable
    of the converter stands for: the style names the kind, and a list item
    carries its indent level as the prefix the script writes before the
    bullet. *)
Module Spec.

Inductive Block : Type :=
| SectionHeading (text : str)
| SubsectionHeading (text : str)
| Paragraph (text : str)
| ListItem (text : str) (indentLevel : nat).

Definition text_of (b : Block) : str :=
  match b with
  | SectionHeading t | SubsectionHeading t | Paragraph t | ListItem t _ => t
  end.

End Spec.

Definition bullet_prefix : str := [bullet; space].                (* "• " *)
Definition nested_bullet_prefix : str := [space; space; bullet; space].  (* "  • " *)

Definition block_of (f : Flowable) : option Spec.Block :=
  match f with
  | Paragraph t SectionHeader => Some (Spec.SectionHeading t)
  | Paragraph t SubsectionHeader => Some (Spec.SubsectionHeading t)
  | Paragraph t ReleaseContent => Some (Spec.Paragraph t)
  | Paragraph t ListItem =>
      if startswith nested_bullet_prefix t then Some (Spec.ListItem (skipn 4 t) 1)
      else if startswith bullet_prefix t then Some (Spec.ListItem (skipn 2 t) 0)
      else None
  | _ => None
  end.

Fixpoint blocks_of (fs : list Flowable) : option (list Spec.Block) :=
  match fs with
  | [] => Some []
  | f :: rest =>
      match block_of f, blocks_of rest with
      | Some b, Some bs => Some (b :: bs)
      | _, _ => None
      end
  end.

(* ================================================================== *)
(** * The generator object *)
(* ================================================================== *)

(** One element of [releaseNotesList]: a dictionary whose keys may be
    absent (the script reads each with [note.get(key, default)]). *)
Record ReleaseEntry : Type := {
  version : option str;
  title : option str;
  date : option str;
  fullText : option str
}.

(** [note.get(key, default)] on a field. *)
Definition get_or (field : option str) (default : str) : str :=
  match field with
  | Some v => v
  | None => default
  end.

(** A [Drawing] of reportlab.graphics: its size and the scalings applied to
    its contents, oldest first. *)
Record Drawing : Type := {
  width : float;
  height : float;
  scalings : list (float * float)
}.

(** The attributes [__init__] sets; [self.styles] is fixed by
    [setup_styles] and is the type [StyleName]. *)
Record Generator : Type := {
  yaml_file_path : str;
  output_path : str;
  release_notes : list ReleaseEntry;
  total_pages : nat;
  current_page : nat;
  logo_drawing : option Drawing;
  pdf_metadata : list (str * str)
}.

(** What a call of [parse_html_content] leaves behind: the list it returns,
    the object, and the lines it printed. *)
Record Converted : Type := {
  elements : list Flowable;
  self_after : Generator;
  printed : list Line
}.

(* ================================================================== *)
(** * [parse_html_content] *)
(* ================================================================== *)

Section Converter.

Context {parser : MarkupParser}.

(** [Paragraph(f"• {text}", self.styles['ListItem'])] *)
Definition bullet_item (text : str) : Flowable :=
  Paragraph (bullet_prefix ++ text) ListItem.

(** [Paragraph(f"  • {nested_text}", self.styles['ListItem'])] *)
Definition nested_bullet_item (text : str) : Flowable :=
  Paragraph (nested_bullet_prefix ++ text) ListItem.

Definition heading_color : str := py "color: #2f5496".
Definition section_size : str := py "font-size: 16pt".
Definition subsection_size : str := py "font-size: 13pt".

(** The branch [element.name == 'p']. *)
Definition paragraph_rule (element : node) : list Flowable :=
  let text := strip (Bs4.get_text element) in
  if truthy text then
    let style := Bs4.element_get element (py "style") [] in
    if contains heading_color style && contains section_size style then
      [Paragraph text SectionHeader]
    else if contains heading_color style && contains subsection_size style then
      [Paragraph text SubsectionHeader]
    else
      [Paragraph text ReleaseContent]
  else [].

(** The branch [element.name in ['h1', 'h2', 'h3']]. *)
Definition heading_rule (element : node) : list Flowable :=
  let text := strip (Bs4.get_text element) in
  if truthy text then
    if Bs4.is_tag_named (py "h1") element then [Paragraph text SectionHeader]
    else [Paragraph text SubsectionHeader]
  else [].

(** The body of [for nested_li in nested_ul.find_all('li', recursive=False)]. *)
Definition nested_item_rule (nested_li : node) : list Flowable :=
  let nested_text := strip (Bs4.get_text nested_li) in
  if truthy nested_text then [nested_bullet_item nested_text] else [].

(** The body of [for li in element.find_all('li', recursive=False)]. *)
Definition list_item_rule (li : node) : list Flowable :=
  let text := strip (Bs4.get_text li) in
  if truthy text then
    match Bs4.find (py "ul") li with
    | Some nested_ul =>
        let main_text :=
          if contains [colon] text then hd [] (split colon text) else text in
        bullet_item main_text
          :: flat_map nested_item_rule (Bs4.find_all_direct (py "li") nested_ul)
    | None => [bullet_item text]
    end
  else [].

(** The branch [element.name == 'ul']. *)
Definition list_rule (element : node) : list Flowable :=
  flat_map list_item_rule (Bs4.find_all_direct (py "li") element).

(** The branch [element.name == 'li']: the item is handled here only when
    its parent is not a [ul]. *)
Definition orphan_item_rule (ancestors : list str) (element : node)
  : list Flowable :=
  match ancestors with
  | [] => []
  | parent :: _ =>
      if negb (PyStr.eqb parent (py "ul")) then
        let text := strip (Bs4.get_text element) in
        if truthy text then [bullet_item text] else []
      else []
  end.

(** The body of the loop over [soup.find_all(...)]. *)
Definition convert_element (ancestors : list str) (element : node)
  : list Flowable :=
  if Bs4.is_tag_named (py "p") element then paragraph_rule element
  else if Bs4.name_in [py "h1"; py "h2"; py "h3"] element then heading_rule element
  else if Bs4.is_tag_named (py "ul") element then list_rule element
  else if Bs4.is_tag_named (py "li") element then orphan_item_rule ancestors element
  else [].

Definition traversed_names : list str :=
  [py "p"; py "h1"; py "h2"; py "h3"; py "ul"; py "li"].

(** The loop of the [try] block over a parsed document. *)
Definition convert_soup (soup : node) : list Flowable :=
  flat_map (fun e => convert_element (fst e) (snd e))
           (Bs4.find_all traversed_names soup).

(** The [except] block: the fragment with its tags removed, as one
    paragraph if anything is left. *)
Definition plain_text_fallback (html_content : str) : list Flowable :=
  let plain_text := re_sub_tags html_content in
  if truthy (strip plain_text) then [Paragraph (strip plain_text) ReleaseContent]
  else [].

(** [parse_html_content(self, html_content)] as it runs when ReportLab
    accepts the text of every [Paragraph] it is asked for: the [except]
    block is then entered from the call of [BeautifulSoup] only, with
    [elements] still empty.  [Checked.parse_html_content] is the method
    with a [Paragraph] that may raise.  The method reads [self.styles] and
    writes nothing to [self]. *)
Definition parse_html_content (self : Generator) (html_content : str)
  : Converted :=
  if truthy html_content then
    match BeautifulSoup html_content with
    | Ok soup =>
        {| elements := convert_soup soup; self_after := self; printed := [] |}
    | Raise e =>
        {| elements := plain_text_fallback html_content;
           self_after := self;
           printed := [ErrorLine (py "Error parsing HTML content: ")
                                 (LibraryError e)] |}
    end
  else {| elements := []; self_after := self; printed := [] |}.

End Converter.

(* ================================================================== *)
(** * A reference markup parser *)
(* ================================================================== *)

(** A small tree builder for fragments with explicit end tags, attributes
    in double quotes and no character references.  It is one implementation
    of [MarkupParser], used to run the converter on the fragments the
    specification quotes; no property below is proved of it alone. *)
Module ReferenceParser.

Inductive token : Type :=
| TStart (name : str) (attrs : list (str * str))
| TEnd (name : str)
| TText (text : str).

Inductive attr_state : Type :=
| SkipSpace
| InKey (acc : str)
| AwaitQuote (key : str)
| InValue (key acc : str).

Definition equals_sign : char := 61%N.
Definition slash : char := 47%N.

Fixpoint parse_attrs (st : attr_state) (s : str) : list (str * str) :=
  match s with
  | [] => []
  | c :: r =>
      match st with
      | SkipSpace =>
          if isspace c then parse_attrs SkipSpace r
          else parse_attrs (InKey [c]) r
      | InKey acc =>
          if N.eqb c equals_sign then parse_attrs (AwaitQuote (rev acc)) r
          else parse_attrs (InKey (c :: acc)) r
      | AwaitQuote k =>
          if N.eqb c quote then parse_attrs (InValue k []) r
          else parse_attrs SkipSpace r
      | InValue k acc =>
          if N.eqb c quote then (k, rev acc) :: parse_attrs SkipSpace r
          else parse_attrs (InValue k (c :: acc)) r
      end
  end.

Fixpoint span_name (s : str) : str * str :=
  match s with
  | [] => ([], [])
  | c :: r =>
      if isspace c then ([], s)
      else let (nm, rest) := span_name r in (c :: nm, rest)
  end.

Definition tag_of (body : str) : token :=
  match body with
  | c :: r =>
      if N.eqb c slash then TEnd r
      else let (nm, rest) := span_name body in TStart nm (parse_attrs SkipSpace rest)
  | [] => TText [lt_sign; gt_sign]
  end.

Inductive lex_state : Type :=
| InText (acc : str)
| InTag (acc : str).

Definition text_token (acc : str) : list token :=
  match acc with
  | [] => []
  | _ => [TText (rev acc)]
  end.

Fixpoint tokenize (st : lex_state) (s : str) : list token :=
  match s with
  | [] =>
      match st with
      | InText acc => text_token acc
      | InTag acc => [TText (lt_sign :: rev acc)]
      end
  | c :: r =>
      match st with
      | InText acc =>
          if N.eqb c lt_sign then text_token acc ++ tokenize (InTag []) r
          else tokenize (InText (c :: acc)) r
      | InTag acc =>
          if N.eqb c gt_sign then tag_of (rev acc) :: tokenize (InText []) r
          else tokenize (InTag (c :: acc)) r
      end
  end.

(** An open element: its name, attributes and the children read so far,
    last first. *)
Definition frame : Type := str * list (str * str) * list node.

Definition document_name : str := py "[document]".

Definition add_child (n : node) (stack : list frame) : list frame :=
  match stack with
  | (nm, a, cs) :: below => (nm, a, n :: cs) :: below
  | [] => []
  end.

Definition with_pending (pending : option node) (cs : list node) : list node :=
  match pending with
  | Some p => p :: cs
  | None => cs
  end.

Fixpoint is_open (nm : str) (stack : list frame) : bool :=
  match stack with
  | [] | [_] => false
  | (n, _, _) :: below => PyStr.eqb n nm || is_open nm below
  end.

Fixpoint pop_to (nm : str) (pending : option node) (stack : list frame)
  : list frame :=
  match stack with
  | [] => []
  | (n, a, cs) :: below =>
      let cs' := with_pending pending cs in
      match below with
      | [] => [(n, a, cs')]
      | _ :: _ =>
          if PyStr.eqb n nm then add_child (Tag n a (rev cs')) below
          else pop_to nm (Some (Tag n a (rev cs'))) below
      end
  end.

Fixpoint close_all (pending : option node) (stack : list frame) : node :=
  match stack with
  | [] => Tag document_name [] []
  | (n, a, cs) :: below =>
      let cs' := with_pending pending cs in
      match below with
      | [] => Tag n a (rev cs')
      | _ :: _ => close_all (Some (Tag n a (rev cs'))) below
      end
  end.

Definition step (stack : list frame) (t : token) : list frame :=
  match t with
  | TText s => add_child (NavigableString s) stack
  | TStart nm a => (nm, a, []) :: stack
  | TEnd nm => if is_open nm stack then pop_to nm None stack else stack
  end.

Definition build (ts : list token) : node :=
  close_all None (fold_left step ts [(document_name, [], [])]).

Definition parse (html : str) : Result node :=
  Ok (build (tokenize (InText []) html)).

(** The same tree builder, rejecting a fragment that ends inside a tag. *)
Fixpoint ends_in_tag (inside : bool) (s : str) : bool :=
  match s with
  | [] => inside
  | c :: r =>
      if N.eqb c lt_sign then ends_in_tag true r
      else if N.eqb c gt_sign then ends_in_tag false r
      else ends_in_tag inside r
  end.

Definition parse_strict (html : str) : Result node :=
  if ends_in_tag false html then Raise (py "unterminated tag") else parse html.

End ReferenceParser.

Definition reference_parser : MarkupParser :=
  {| BeautifulSoup := ReferenceParser.parse |}.

Definition strict_parser : MarkupParser :=
  {| BeautifulSoup := ReferenceParser.parse_strict |}.

(* ================================================================== *)
(** * The world of the process: files and console *)
(* ================================================================== *)

(** A path is absent ([None]), or present; reading a present path gives its
    text or raises (a directory, no permission, not UTF-8). *)
Definition FileSystem : Type := str -> option (Result str).

Definition exists_path (fs : FileSystem) (path : str) : bool :=
  match fs path with
  | Some _ => true
  | None => false
  end.

(** [open(path, 'r', encoding='utf-8')] followed by reading the file. *)
Definition read_file (fs : FileSystem) (path : str) : Result str :=
  match fs path with
  | Some r => r
  | None => Raise (py "No such file or directory")
  end.

Definition write_file (fs : FileSystem) (path content : str) : FileSystem :=
  fun p => if PyStr.eqb p path then Some (Ok content) else fs p.

(** [os.path.join(directory, name)] on POSIX, for a relative [name]. *)
Definition path_join (directory name : str) : str :=
  match rev directory with
  | [] => name
  | c :: _ =>
      if N.eqb c ReferenceParser.slash then directory ++ name
      else directory ++ ReferenceParser.slash :: name
  end.

Record World : Type := {
  files : FileSystem;
  console : list Line
}.

Definition print (l : Line) (w : World) : World :=
  {| files := files w; console := console w ++ [l] |}.

(** How a run ends: [sys.exit(status)] or the end of [main] (status 0), or
    with input outside the data model (an entry that is no dictionary of
    strings), which the script handles by Python's dynamic typing and this
    development leaves alone. *)
Inductive Ending : Type :=
| Exit (status : nat)
| OutsideModel.

(* ================================================================== *)
(** * [convert_svg_to_drawing] and [get_logo_drawing] *)
(* ================================================================== *)

(** [svg2rlg(path)]: a drawing, [None], or an exception. *)
Class SvgLib := {
  svg2rlg : FileSystem -> str -> Result (option Drawing)
}.

(** Truthiness of a float: [x != 0.0]. *)
Definition float_truthy (x : float) : bool := negb (PrimFloat.eqb x 0%float).

Definition fallback_width : float := 400%float.

Section Logo.

Context {svglib : SvgLib}.

(** [drawing.scale(sx, sy)] *)
Definition scale (drawing : Drawing) (sx sy : float) : Drawing :=
  {| width := width drawing;
     height := height drawing;
     scalings := scalings drawing ++ [(sx, sy)] |}.

Definition set_size (drawing : Drawing) (w h : float) : Drawing :=
  {| width := w; height := h; scalings := scalings drawing |}.

(** [convert_svg_to_drawing(self, svg_path, target_height=50)] *)
Definition convert_svg_to_drawing (fs : FileSystem) (svg_path : str)
           (target_height : float) : option Drawing * list Line :=
  match svg2rlg fs svg_path with
  | Ok (Some drawing) =>
      if float_truthy (width drawing) && float_truthy (height drawing) then
        let scale_factor := (target_height / height drawing)%float in
        let new_width := (width drawing * scale_factor)%float in
        let new_height := target_height in
        (Some (set_size (scale drawing scale_factor scale_factor)
                        new_width new_height),
         [ScaledLine svg_path new_width new_height])
      else
        (Some (set_size drawing fallback_width target_height), [])
  | Ok None =>
      (None, [Text (py "Failed to convert SVG: " ++ svg_path)])
  | Raise e =>
      (None, [ErrorLine (py "Error converting SVG to Drawing: ") (LibraryError e)])
  end.

Definition set_logo_drawing (self : Generator) (d : option Drawing) : Generator :=
  {| yaml_file_path := yaml_file_path self;
     output_path := output_path self;
     release_notes := release_notes self;
     total_pages := total_pages self;
     current_page := current_page self;
     logo_drawing := d;
     pdf_metadata := pdf_metadata self |}.

(** [get_logo_drawing(self, target_height=50)]: the cached drawing, or the
    SVG beside the script converted and cached. *)
Definition get_logo_drawing (script_dir : str) (fs : FileSystem)
           (self : Generator) (target_height : float)
  : option Drawing * Generator * list Line :=
  match logo_drawing self with
  | Some d => (Some d, self, [])
  | None =>
      let svg_logo_path := path_join script_dir (py "Portal_Logo.svg") in
      if exists_path fs svg_logo_path then
        let (d, out) := convert_svg_to_drawing fs svg_logo_path target_height in
        (d, set_logo_drawing self d, out)
      else (None, self, [])
  end.

End Logo.

(* ================================================================== *)
(** * [create_table_of_contents] *)
(* ================================================================== *)

(** [enumerate(l)] *)
Definition enumerate {A : Type} (l : list A) : list (nat * A) :=
  combine (seq 0 (List.length l)) l.

(** [f"release_{i}"] *)
Definition anchor_name (i : nat) : str := py "release_" ++ of_nat i.

Section TableOfContents.

Definition toc_header_row : list Flowable :=
  [Paragraph (py "<b>Version</b>") ListItem;
   Paragraph (py "<b>Date</b>") ListItem].

(** [f'<link href="#{anchor_name}" color="blue">{version}</link>'] *)
Definition link_markup (anchor version : str) : str :=
  py "<link href=" ++ quote :: py "#" ++ anchor ++ quote
     :: py " color=" ++ quote :: py "blue" ++ quote :: py ">"
     ++ version ++ py "</link>".

(** The body of the loop over [enumerate(self.release_notes)]. *)
Definition toc_row (i : nat) (note : ReleaseEntry) : list Flowable :=
  let version := get_or (version note) (py "N/A") in
  let date := get_or (date note) (py "Unknown Date") in
  let clickable_version := Paragraph (link_markup (anchor_name i) version) ListItem in
  let date_para := Paragraph date ListItem in
  [clickable_version; date_para].

Definition toc_data (self : Generator) : list (list Flowable) :=
  toc_header_row
    :: List.map (fun e => toc_row (fst e) (snd e)) (enumerate (release_notes self)).

(** [create_table_of_contents(self)] *)
Definition create_table_of_contents (self : Generator) : Flowable :=
  Table (toc_data self).

End TableOfContents.

(* ================================================================== *)
(** * [create_header_footer] *)
(* ================================================================== *)

Inductive Color : Type := NihBlue | Black.

(** The calls the page callback makes on the canvas. *)
Inductive CanvasOp : Type :=
| RenderDrawing (d : Drawing) (x y : float)
| DrawImage (path : str) (x y w h : float)
| SetFont (name : str) (size : float)
| SetFillColor (c : Color)
| SetStrokeColor (c : Color)
| SetLineWidth (w : float)
| DrawString (x y : float) (text : str)
| DrawLine (x1 y1 x2 y2 : float)
| SetTitle (s : str)
| SetAuthor (s : str)
| SetSubject (s : str)
| SetCreator (s : str)
| SetProducer (s : str)
| SetKeywords (s : str).

(** The layout engine: the width of a string in a font, the number of pages
    a story takes, and the bytes of the finished document given the story
    and what the callback drew on each page. *)
Class ReportLab := {
  stringWidth : str -> str -> float -> float;
  page_count : list Flowable -> nat;
  render : list Flowable -> list (list CanvasOp) -> str
}.

Definition page_width : float := 612%float.    (* letter *)
Definition page_height : float := 792%float.

Section HeaderFooter.

Context {svglib : SvgLib} {reportlab : ReportLab}.

(** The header: the SVG logo, else the PNG beside the script, else the
    branding text of the [except] block. *)
Definition draw_header (script_dir : str) (fs : FileSystem)
           (self : Generator) : list CanvasOp * Generator * list Line :=
  let '(drawing, self, out) := get_logo_drawing script_dir fs self 50%float in
  match drawing with
  | Some d => ([RenderDrawing d 50 (page_height - 80)%float], self, out)
  | None =>
      let png_logo_path := path_join script_dir (py "nih_logo.png") in
      if exists_path fs png_logo_path then
        ([DrawImage png_logo_path 50 (page_height - 80)%float 400 50], self, out)
      else
        ([SetFont (py "Helvetica-Bold") 16;
          SetFillColor NihBlue;
          DrawString 50 (page_height - 60)%float (py "NATIONAL CANCER INSTITUTE")],
         self,
         out ++ [ErrorLine (py "Warning: Could not load logo: ") NoLogoFiles])
  end.

Definition footer_text : str :=
  py "U.S. Department of Health and Human Services | National Institutes of Health | National Cancer Institute".

(** [f"Page {page_num} of {self.total_pages}"] *)
Definition page_text (self : Generator) (page_num : nat) : str :=
  py "Page " ++ of_nat page_num ++ py " of " ++ of_nat (total_pages self).

Definition draw_footer (self : Generator) (page_num : nat) : list CanvasOp :=
  let footer_y := 50%float in
  let text_width := stringWidth (page_text self page_num) (py "Helvetica") 9 in
  [SetFont (py "Helvetica") 9;
   SetFillColor Black;
   DrawString 50 footer_y footer_text;
   DrawString (page_width - 50 - text_width)%float footer_y
              (page_text self page_num);
   SetStrokeColor Black;
   SetLineWidth 0.5;
   DrawLine 50 (footer_y + 15)%float (page_width - 50)%float (footer_y + 15)%float].

(** [create_header_footer(self, canvas, doc)] on the page whose number the
    canvas reports as [page_num]. *)
Definition create_header_footer (script_dir : str) (fs : FileSystem)
           (self : Generator) (page_num : nat)
  : list CanvasOp * Generator * list Line :=
  let '(header, self, out) := draw_header script_dir fs self in
  (header
     ++ [SetStrokeColor NihBlue;
         SetLineWidth 1;
         DrawLine 50 (page_height - 90)%float
                  (page_width - 50)%float (page_height - 90)%float]
     ++ draw_footer self page_num,
   self, out).

End HeaderFooter.

(* ================================================================== *)
(** * [generate_pdf] *)
(* ================================================================== *)

(** [s.upper()], Unicode case mapping. *)
Class CaseMapping := {
  upper : str -> str
}.

(** [d.get(key, default)] and [key in d] on a dictionary of strings. *)
Definition dict_get (d : list (str * str)) (key default : str) : str :=
  Bs4.get d key default.

Definition dict_has (d : list (str * str)) (key : str) : bool :=
  existsb (fun kv => PyStr.eqb (fst kv) key) d.

Definition fixed_total_pages : nat := 37.

Section GeneratePdf.

Context {parser : MarkupParser} {svglib : SvgLib} {reportlab : ReportLab}
        {casing : CaseMapping}.

(** [f'<a name="{anchor_name}"></a>{title}'] *)
Definition anchor_markup (anchor title : str) : str :=
  py "<a name=" ++ quote :: anchor ++ quote :: py "></a>" ++ title.

(** The title paragraph of entry [i], with its anchor. *)
Definition title_of (e : nat * ReleaseEntry) : Flowable :=
  Paragraph (anchor_markup (anchor_name (fst e))
                           (get_or (title (snd e)) (py "Unknown Release")))
            ReleaseTitle.

Definition no_conversion (self : Generator) : Converted :=
  {| elements := []; self_after := self; printed := [] |}.

(** The loop [for i, note in enumerate(self.release_notes)], from entry
    [i] on: the flowables appended to [story], the object, the lines
    printed. *)
Fixpoint process_notes (self : Generator) (count : nat)
         (notes : list (nat * ReleaseEntry))
  : list Flowable * Generator * list Line :=
  match notes with
  | [] => ([], self, [])
  | (i, note) :: rest =>
      let processing :=
        Text (py "Processing release note " ++ of_nat (i + 1) ++ py "/"
                ++ of_nat count ++ py ": " ++ get_or (title note) (py "Unknown")) in
      let title := get_or (title note) (py "Unknown Release") in
      let title_paragraph :=
        Paragraph (anchor_markup (anchor_name i) title) ReleaseTitle in
      let date := get_or (date note) (py "Unknown Date") in
      let date_paragraph :=
        Paragraph (py "<b>DATE OF RELEASE:</b> " ++ upper date) ReleaseDate in
      let full_text := get_or (fullText note) [] in
      let converted :=
        if truthy full_text then parse_html_content self full_text
        else no_conversion self in
      let page_break := if i <? count - 1 then [PageBreak] else [] in
      let '(story_rest, self_end, out_rest) :=
        process_notes (self_after converted) count rest in
      (title_paragraph :: date_paragraph :: Spacer 1 (0.05 * inch)%float
         :: elements converted ++ page_break ++ story_rest,
       self_end,
       processing :: printed converted ++ out_rest)
  end.

(** The story [generate_pdf] hands to [doc.build]. *)
Definition build_story (self : Generator)
  : list Flowable * Generator * list Line :=
  let toc_table := create_table_of_contents self in
  let '(sections, self_end, out) :=
    process_notes self (List.length (release_notes self))
                  (enumerate (release_notes self)) in
  (Paragraph (py "Table of Contents") SectionHeader
     :: Spacer 1 (0.2 * inch)%float
     :: toc_table
     :: PageBreak
     :: sections,
   self_end, out).

Definition set_total_pages (self : Generator) (n : nat) : Generator :=
  {| yaml_file_path := yaml_file_path self;
     output_path := output_path self;
     release_notes := release_notes self;
     total_pages := n;
     current_page := current_page self;
     logo_drawing := logo_drawing self;
     pdf_metadata := pdf_metadata self |}.

(** The inner function [add_header_footer(canvas, doc)]. *)
Definition add_header_footer (script_dir : str) (fs : FileSystem)
           (self : Generator) (page_num : nat)
  : list CanvasOp * Generator * list Line :=
  let m := pdf_metadata self in
  let '(ops, self, out) := create_header_footer script_dir fs self page_num in
  ([SetTitle (dict_get m (py "Title") []);
    SetAuthor (dict_get m (py "Author") []);
    SetSubject (dict_get m (py "Subject") []);
    SetCreator (dict_get m (py "Creator") []);
    SetProducer (dict_get m (py "Producer") (py "ReportLab PDF Library"))]
     ++ (if dict_has m (py "Keywords")
         then [SetKeywords (dict_get m (py "Keywords") [])] else [])
     ++ ops,
   self, out).

(** The callback run on the pages [doc.build] lays out, in order. *)
Fixpoint decorate_pages (script_dir : str) (fs : FileSystem)
         (self : Generator) (pages : list nat)
  : list (list CanvasOp) * Generator * list Line :=
  match pages with
  | [] => ([], self, [])
  | page_num :: rest =>
      let '(ops, self, out) := add_header_footer script_dir fs self page_num in
      let '(ops_rest, self_end, out_rest) :=
        decorate_pages script_dir fs self rest in
      (ops :: ops_rest, self_end, out ++ out_rest)
  end.

(** What [generate_pdf] produced: the story, what was drawn on each page,
    the object and the world afterwards. *)
Record Generated : Type := {
  story : list Flowable;
  decorations : list (list CanvasOp);
  generator_after : Generator;
  world_after : World
}.

(** [generate_pdf(self)], when no exception leaves it (the other case is
    in [Checked.generate_pdf]).  [self.total_pages] is assigned before
    [doc.build] runs; the build lays the story out, calls the callback on
    each page and writes the file at [self.output_path]. *)
Definition generate_pdf (script_dir : str) (self : Generator) (w : World)
  : Generated :=
  let w := print (Text (py "Generating PDF...")) w in
  let '(story, self, out) := build_story self in
  let w := fold_left (fun w l => print l w) out w in
  let self := set_total_pages self fixed_total_pages in
  let pages := seq 1 (page_count story) in
  let '(drawn, self, out) := decorate_pages script_dir (files w) self pages in
  let w := fold_left (fun w l => print l w) out w in
  let w := {| files := write_file (files w) (output_path self) (render story drawn);
              console := console w |} in
  let w := print (Text (py "PDF generated successfully: " ++ output_path self)) w in
  {| story := story; decorations := drawn; generator_after := self; world_after := w |}.

End GeneratePdf.

(* ================================================================== *)
(** * [load_yaml_data] *)
(* ================================================================== *)

(** What [yaml.safe_load] returns: [None], a scalar, a list or a
    dictionary.  [YScalar] stands for the scalars that are neither a string
    nor a container (booleans, numbers, dates). *)
Inductive yaml : Type :=
| YNull
| YScalar (repr : str)
| YStr (s : str)
| YList (items : list yaml)
| YDict (items : list (yaml * yaml)).

Class YamlLib := {
  safe_load : str -> Result yaml
}.

Module Py.

Definition is_str (key : str) (y : yaml) : bool :=
  match y with
  | YStr s => PyStr.eqb s key
  | _ => false
  end.

(** [key in data], for a string [key]. *)
Definition contains_key (key : str) (data : yaml) : option bool :=
  match data with
  | YDict items => Some (existsb (fun kv => is_str key (fst kv)) items)
  | YList items => Some (existsb (is_str key) items)
  | YStr s => Some (contains key s)
  | YNull | YScalar _ => None      (* TypeError: not iterable *)
  end.

Fixpoint lookup (key : str) (items : list (yaml * yaml)) : option yaml :=
  match items with
  | [] => None
  | (k, v) :: rest => if is_str key k then Some v else lookup key rest
  end.

(** [data[key]], for a string [key]. *)
Definition getitem (key : str) (data : yaml) : option yaml :=
  match data with
  | YDict items => lookup key items
  | _ => None                      (* TypeError: indices must be integers *)
  end.

(** [len(value)] *)
Definition len (value : yaml) : option nat :=
  match value with
  | YList items => Some (List.length items)
  | YDict items => Some (List.length items)
  | YStr s => Some (List.length s)
  | YNull | YScalar _ => None      (* TypeError: no len() *)
  end.

End Py.

(** A field of an entry: absent, a string, or outside the data model. *)
Definition field_of (key : str) (items : list (yaml * yaml))
  : option (option str) :=
  match Py.lookup key items with
  | None => Some None
  | Some (YStr s) => Some (Some s)
  | Some _ => None
  end.

Definition entry_of (y : yaml) : option ReleaseEntry :=
  match y with
  | YDict items =>
      match field_of (py "version") items, field_of (py "title") items,
            field_of (py "date") items, field_of (py "fullText") items with
      | Some v, Some t, Some d, Some f =>
          Some {| version := v; title := t; date := d; fullText := f |}
      | _, _, _, _ => None
      end
  | _ => None
  end.

Fixpoint entries_of_list (ys : list yaml) : option (list ReleaseEntry) :=
  match ys with
  | [] => Some []
  | y :: rest =>
      match entry_of y, entries_of_list rest with
      | Some e, Some es => Some (e :: es)
      | _, _ => None
      end
  end.

(** The value of [releaseNotesList] as the list of entries of the data
    model, when it is one. *)
Definition entries_of (value : yaml) : option (list ReleaseEntry) :=
  match value with
  | YList ys => entries_of_list ys
  | _ => None
  end.

(** A step of the process: it goes on with a value, or the process ends. *)
Inductive Step (A : Type) : Type :=
| Continue (value : A) (w : World)
| Stop (e : Ending) (w : World).
Arguments Continue {A} value w.
Arguments Stop {A} e w.

Definition release_notes_key : str := py "releaseNotesList".

Section Loader.

Context {yamllib : YamlLib}.

Definition set_release_notes (self : Generator) (notes : list ReleaseEntry)
  : Generator :=
  {| yaml_file_path := yaml_file_path self;
     output_path := output_path self;
     release_notes := notes;
     total_pages := total_pages self;
     current_page := current_page self;
     logo_drawing := logo_drawing self;
     pdf_metadata := pdf_metadata self |}.

(** The [except Exception as e] clause of [load_yaml_data]. *)
Definition load_failed {A : Type} (e : PyError) (w : World) : Step A :=
  Stop (Exit 1) (print (ErrorLine (py "Error loading YAML file: ") e) w).

(** [load_yaml_data(self)] *)
Definition load_yaml_data (self : Generator) (w : World) : Step Generator :=
  match read_file (files w) (yaml_file_path self) with
  | Raise e => load_failed (LibraryError e) w
  | Ok text =>
      match safe_load text with
      | Raise e => load_failed (LibraryError e) w
      | Ok data =>
          match Py.contains_key release_notes_key data with
          | None => load_failed TypeError w
          | Some false => load_failed MissingReleaseNotesList w
          | Some true =>
              match Py.getitem release_notes_key data with
              | None => load_failed TypeError w
              | Some value =>
                  match Py.len value with
                  | None => load_failed TypeError w
                  | Some n =>
                      let w :=
                        print (Text (py "Loaded " ++ of_nat n
                                        ++ py " release notes entries")) w in
                      match entries_of value with
                      | Some notes => Continue (set_release_notes self notes) w
                      | None => Stop OutsideModel w
                      end
                  end
              end
          end
      end
  end.

End Loader.

(* ================================================================== *)
(** * [__init__] and [main] *)
(* ================================================================== *)

Definition default_pdf_metadata : list (str * str) :=
  [(py "Title", py "CCDI Hub Release Notes");
   (py "Author", py "National Cancer Institute");
   (py "Subject", py "CCDI Hub Release Notes and Updates");
   (py "Creator", py "CCDI Hub Release Notes Generator");
   (py "Producer", py "ReportLab PDF Library")].

Definition default_output_path : str := py "CCDI_Hub_Release_Notes.pdf".

(** [a or b] on an optional string. *)
Definition or_else (a : option str) (b : str) : str :=
  match a with
  | Some s => if truthy s then s else b
  | None => b
  end.

(** [ReleaseNotesPDFGenerator(yaml_file_path, output_path, pdf_metadata)] *)
Definition init (yaml_path : str) (out_path : option str)
           (metadata : option (list (str * str))) (w : World)
  : Generator * World :=
  let m :=
    match metadata with
    | Some (_ :: _ as m) => m
    | _ => default_pdf_metadata
    end in
  ({| yaml_file_path := yaml_path;
      output_path := or_else out_path default_output_path;
      release_notes := [];
      total_pages := 0;
      current_page := 0;
      logo_drawing := None;
      pdf_metadata := m |},
   print (MetadataRepr m) w).

Section Main.

Context {parser : MarkupParser} {svglib : SvgLib} {reportlab : ReportLab}
        {casing : CaseMapping} {yamllib : YamlLib}.

(** [main()], with [script_dir] the directory of the script, when no
    exception leaves [generate_pdf] (the other case is in [Checked.main]). *)
Definition main (script_dir : str) (w : World) : Ending * World :=
  let yaml_file := path_join script_dir (py "newsData.yaml") in
  let output_file := path_join script_dir (py "CCDI_Hub_Release_Notes.pdf") in
  if negb (exists_path (files w) yaml_file) then
    (Exit 1, print (Text (py "Error: YAML file not found at " ++ yaml_file)) w)
  else
    let (generator, w) := init yaml_file (Some output_file) None w in
    match load_yaml_data generator w with
    | Stop e w => (e, w)
    | Continue generator w =>
        let g := generate_pdf script_dir generator w in
        (Exit 0, print (Text (py "Done!")) (world_after g))
    end.

End Main.

(* ================================================================== *)
(** * Reading the specification *)
(* ================================================================== *)

(** The words of the specification that name something in the output of the
    script, as functions on that output. *)
Module Reading.




(** An element has an unordered-list ancestor. *)
Definition has_ul_ancestor (ancestors : list str) : bool :=
  existsb (fun nm => PyStr.eqb nm (py "ul")) ancestors.

(** The parent of an element is an unordered list. *)
Definition parent_is_ul (ancestors : list str) : bool :=
  match ancestors with
  | parent :: _ => PyStr.eqb parent (py "ul")
  | [] => false
  end.











(** A line is a diagnostic of a failed load: the message of [main] for a
    missing file, or the message of [load_yaml_data] with its exception. *)
Definition is_load_diagnostic (yaml_file : str) (l : Line) : Prop :=
  l = Text (py "Error: YAML file not found at " ++ yaml_file)
  \/ exists e, l = ErrorLine (py "Error loading YAML file: ") e.

(** A block is blank: nothing is left of its text after stripping. *)
Definition blank (b : Spec.Block) : bool :=
  negb (truthy (strip (Spec.text_of b))).

End Reading.

(* ================================================================== *)
(** * Sample inputs and library instances *)
(* ================================================================== *)

Module Samples.

Definition li : str := py "li".
Definition ul : str := py "ul".
Definition document (contents : list node) : node :=
  Tag ReferenceParser.document_name [] contents.

(** [<ul><li>Group A: <ul><li>X</li><li>Y</li></ul></li></ul>] *)
Definition nested_list_fragment : str :=
  py "<ul><li>Group A: <ul><li>X</li><li>Y</li></ul></li></ul>".

Definition nested_list_soup : node :=
  document
    [Tag ul []
       [Tag li []
          [NavigableString (py "Group A: ");
           Tag ul []
             [Tag li [] [NavigableString (py "X")];
              Tag li [] [NavigableString (py "Y")]]]]].

(** [<p style="color: #2f5496; font-size: 16pt">Overview</p>] *)
Definition overview_fragment : str :=
  py "<p style=" ++ quote :: py "color: #2f5496; font-size: 16pt" ++ quote
     :: py ">Overview</p>".



(** The same paragraph with the style written without blanks after the
    colons, as section 8 of the specification writes it. *)
Definition compact_style : str := py "color:#2f5496; font-size:16pt".

Definition compact_element : node :=
  Tag (py "p") [(py "style", compact_style)] [NavigableString (py "Overview")].

Definition compact_soup : node := document [compact_element].

(** [<ul><li>a<ol><li>b</li></ol></li></ul>]: the inner item lies under a
    [ul], and its parent is the [ol]. *)
Definition inner_item : node := Tag li [] [NavigableString (py "b")].

Definition mixed_list_soup : node :=
  document
    [Tag ul []
       [Tag li [] [NavigableString (py "a"); Tag (py "ol") [] [inner_item]]]].

Definition inner_item_ancestors : list str :=
  [py "ol"; li; ul; ReferenceParser.document_name].

(** [<li> </li>]: an item outside any list, with blank text. *)
Definition blank_item : node := Tag li [] [NavigableString (py " ")].

Definition blank_item_soup : node := document [blank_item].


(** [<ul><li>: <ul><li>X</li></ul></li></ul>]: the text of the outer item
    starts with the colon. *)
Definition colon_first_fragment : str :=
  py "<ul><li>: <ul><li>X</li></ul></li></ul>".

Definition colon_first_soup : node :=
  document
    [Tag ul []
       [Tag li []
          [NavigableString (py ": ");
           Tag ul [] [Tag li [] [NavigableString (py "X")]]]]].

(** A parser that rejects every fragment. *)
Definition rejecting_parser : MarkupParser :=
  {| BeautifulSoup := fun _ => Raise (py "parser error") |}.

(** A fragment that ends inside a tag. *)
Definition unterminated_fragment : str := py "<p>hi</p> there <b".

Definition first_entry : ReleaseEntry :=
  {| version := Some (py "2.1.0");
     title := Some (py "CCDI Hub 2.1.0");
     date := Some (py "March 3, 2025");
     fullText := Some overview_fragment |}.

Definition second_entry : ReleaseEntry :=
  {| version := Some (py "2.0.0");
     title := None;
     date := None;
     fullText := Some nested_list_fragment |}.

Definition generator : Generator :=
  {| yaml_file_path := py "/app/newsData.yaml";
     output_path := py "/app/CCDI_Hub_Release_Notes.pdf";
     release_notes := [first_entry; second_entry];
     total_pages := 0;
     current_page := 0;
     logo_drawing := None;
     pdf_metadata := default_pdf_metadata |}.

Definition empty_files : FileSystem := fun _ => None.

Definition empty_world : World := {| files := empty_files; console := [] |}.

(** Files with the SVG logo beside the script and nothing else. *)
Definition logo_world : FileSystem :=
  write_file empty_files (py "/app/Portal_Logo.svg") (py "<svg/>").

(** A world with the input file and nothing else. *)
Definition input_world : World :=
  {| files := write_file empty_files (py "/app/newsData.yaml") (py "releaseNotesList: []");
     console := [] |}.

Definition logo : Drawing :=
  {| width := 400; height := 100; scalings := [] |}.

Definition svglib : SvgLib :=
  {| svg2rlg := fun _ _ => Ok (Some logo) |}.

(** A converter that cannot read the logo. *)
Definition broken_svglib : SvgLib :=
  {| svg2rlg := fun _ _ => Raise (py "not well-formed") |}.

Fixpoint count_page_breaks (story : list Flowable) : nat :=
  match story with
  | [] => 0
  | PageBreak :: rest => S (count_page_breaks rest)
  | _ :: rest => count_page_breaks rest
  end.

(** A layout with one page per page break and fixed-width characters. *)
Definition reportlab : ReportLab :=
  {| stringWidth := fun _ _ _ => 90%float;
     page_count := fun story => S (count_page_breaks story);
     render := fun _ _ => py "%PDF-1.4" |}.

Definition ascii_upper_char (c : char) : char :=
  if ((97 <=? c) && (c <=? 122))%N then (c - 32)%N else c.

Definition casing : CaseMapping :=
  {| upper := List.map ascii_upper_char |}.

(** A loader that returns the same data for every text, and one that
    rejects every text. *)
Definition constant_yaml (data : yaml) : YamlLib :=
  {| safe_load := fun _ => Ok data |}.

Definition rejecting_yaml : YamlLib :=
  {| safe_load := fun _ => Raise (py "could not find expected ':'") |}.

End Samples.

(** A run of conversions on one object, one after the other: what each
    returned, and the object at the end. *)
Fixpoint convert_each {parser : MarkupParser} (self : Generator)
         (fragments : list str) : list (list Flowable) * Generator :=
  match fragments with
  | [] => ([], self)
  | html :: rest =>
      let converted := parse_html_content self html in
      let (results, self_end) := convert_each (self_after converted) rest in
      (elements converted :: results, self_end)
  end.

(** Two sentences of the specification, word for word, as propositions
    about the converter. *)
Module AsStated.

Import Reading.



(** Whenever the logo asset supplies a dimension, the rendered width is the
    native width times the quotient of target height and native height;
    the fixed fallback width is for an asset that supplies none. *)
Definition logo_width_from_aspect_ratio : Prop :=
  forall (svglib : SvgLib) (fs : FileSystem) (svg_path : str)
         (target_height : float) (drawing scaled : Drawing),
    svg2rlg fs svg_path = Ok (Some drawing) ->
    fst (convert_svg_to_drawing fs svg_path target_height) = Some scaled ->
    float_truthy (width drawing) || float_truthy (height drawing) = true ->
    width scaled = (width drawing * (target_height / height drawing))%float.

End AsStated.

(** More words for what the script builds, used by the properties of the
    last part. *)
Module Structure.

(** [re.search(r'<[^>]+>', s) is not None]: the tag pattern matches
    somewhere in [s]. *)
Fixpoint has_tag (s : str) : bool :=
  match s with
  | [] => false
  | _ :: r =>
      match match_tag s with
      | Some _ => true
      | None => has_tag r
      end
  end.


(** A node of the tree that is no tag. *)
Definition is_string (n : node) : bool :=
  match n with
  | Tag _ _ _ => false
  | _ => true
  end.



Definition draws_logo (op : CanvasOp) : bool :=
  match op with
  | RenderDrawing _ _ _ => true
  | _ => false
  end.

(** The three headers [create_header_footer] can draw. *)
Definition logo_header (d : Drawing) : list CanvasOp :=
  [RenderDrawing d 50 712].

Definition png_header (png_logo_path : str) : list CanvasOp :=
  [DrawImage png_logo_path 50 712 400 50].

Definition text_header : list CanvasOp :=
  [SetFont (py "Helvetica-Bold") 16;
   SetFillColor NihBlue;
   DrawString 50 732 (py "NATIONAL CANCER INSTITUTE")].

(** The one flowable of the converter with no text behind its bullet: the
    lead item of a list item [li] of [soup] that is a direct child of a
    traversed [ul], holds a nested [ul], and whose stripped text starts
    with a colon. *)
Definition empty_lead_item (soup : node) (f : Flowable) : Prop :=
  f = bullet_item []
  /\ exists (ancestors : list str) (ul li nested_ul : node),
      In (ancestors, ul) (Bs4.find_all traversed_names soup)
      /\ Bs4.is_tag_named (py "ul") ul = true
      /\ In li (Bs4.find_all_direct (py "li") ul)
      /\ Bs4.find (py "ul") li = Some nested_ul
      /\ startswith [colon] (strip (Bs4.get_text li)) = true.

(** The world a step leaves. *)
Definition world_of {A : Type} (s : Step A) : World :=
  match s with
  | Continue _ w => w
  | Stop _ w => w
  end.

End Structure.

Section ReleaseSections.

Context {parser : MarkupParser} {casing : CaseMapping}.


End ReleaseSections.

(* ================================================================== *)
(** * The methods with ReportLab's checks *)
(* ================================================================== *)

(** What ReportLab refuses.  [Paragraph(text, style)] parses [text] as its
    markup and raises a [ValueError] when it is not [accepts]-able, with
    [complaint text] as message.  [doc.build(story, ...)] raises when
    [build_failure story] says so, after the page callback ran on the given
    number of pages. *)
Class ReportLabChecks := {
  accepts : str -> bool;
  complaint : str -> str;
  build_failure : list Flowable -> option (nat * str)
}.

Module Checked.

Section Methods.

Context {parser : MarkupParser} {checks : ReportLabChecks}
        {svglib : SvgLib} {reportlab : ReportLab}
        {casing : CaseMapping} {yamllib : YamlLib}.

(** The text for which building [f] raises, if it does. *)
Definition rejected (f : Flowable) : option str :=
  match f with
  | Paragraph t _ => if accepts t then None else Some t
  | _ => None
  end.

Definition constructs (f : Flowable) : bool :=
  match rejected f with
  | None => true
  | Some _ => false
  end.

(** [elements.append(Paragraph(...))] for each of [calls] in order, up to
    the first that raises: the list then, and the text that was refused. *)
Fixpoint append_each (elements calls : list Flowable)
  : list Flowable * option str :=
  match calls with
  | [] => (elements, None)
  | f :: rest =>
      match rejected f with
      | Some t => (elements, Some t)
      | None => append_each (elements ++ [f]) rest
      end
  end.

(** The loop of the [try] block over the elements found, each making the
    [Paragraph] calls of its branch in order. *)
Fixpoint convert_loop (elements : list Flowable)
         (found : list (list str * node)) : list Flowable * option str :=
  match found with
  | [] => (elements, None)
  | e :: rest =>
      match append_each elements (convert_element (fst e) (snd e)) with
      | (elements', None) => convert_loop elements' rest
      | stopped => stopped
      end
  end.

(** The [except] block, entered with the blocks appended so far.  Its own
    [Paragraph] call is outside any [try]. *)
Definition except_block (html_content : str) (elements : list Flowable)
           (message : str) : Result (list Flowable) * list Line :=
  let line :=
    ErrorLine (py "Error parsing HTML content: ") (LibraryError message) in
  let plain_text := re_sub_tags html_content in
  if truthy (strip plain_text) then
    if accepts (strip plain_text) then
      (Ok (elements ++ [Paragraph (strip plain_text) ReleaseContent]), [line])
    else (Raise (complaint (strip plain_text)), [line])
  else (Ok elements, [line]).

(** [parse_html_content(self, html_content)]: what it returns, or the
    exception that leaves it, and the lines it printed. *)
Definition parse_html_content (self : Generator) (html_content : str)
  : Result (list Flowable) * list Line :=
  if truthy html_content then
    match BeautifulSoup html_content with
    | Ok soup =>
        match convert_loop [] (Bs4.find_all traversed_names soup) with
        | (elements, None) => (Ok elements, [])
        | (elements, Some t) => except_block html_content elements (complaint t)
        end
    | Raise e => except_block html_content [] e
    end
  else (Ok [], []).

(** Building each of [calls] in order: all of them, or the first complaint. *)
Definition construct (calls : list Flowable) : Result (list Flowable) :=
  match append_each [] calls with
  | (built, None) => Ok built
  | (_, Some t) => Raise (complaint t)
  end.

(** [create_table_of_contents(self)]: the cells are built row by row before
    the table is. *)
Definition create_table_of_contents (self : Generator) : Result Flowable :=
  match construct (List.concat (toc_data self)) with
  | Ok _ => Ok (Table (toc_data self))
  | Raise e => Raise e
  end.

(** The loop over the release notes: the flowables appended to [story], or
    the exception that ends the loop, and the lines printed. *)
Fixpoint process_notes (self : Generator) (count : nat)
         (notes : list (nat * ReleaseEntry))
  : Result (list Flowable) * list Line :=
  match notes with
  | [] => (Ok [], [])
  | (i, note) :: rest =>
      let processing :=
        Text (py "Processing release note " ++ of_nat (i + 1) ++ py "/"
                ++ of_nat count ++ py ": " ++ get_or (title note) (py "Unknown")) in
      let date := get_or (date note) (py "Unknown Date") in
      let date_paragraph :=
        Paragraph (py "<b>DATE OF RELEASE:</b> " ++ upper date) ReleaseDate in
      let full_text := get_or (fullText note) [] in
      let page_break := if i <? count - 1 then [PageBreak] else [] in
      match construct [title_of (i, note); date_paragraph] with
      | Raise e => (Raise e, [processing])
      | Ok heading =>
          let (body, printed) :=
            if truthy full_text then parse_html_content self full_text
            else (Ok [], []) in
          match body with
          | Raise e => (Raise e, processing :: printed)
          | Ok content =>
              let (sections, out_rest) := process_notes self count rest in
              (match sections with
               | Raise e => Raise e
               | Ok story_rest =>
                   Ok (heading ++ Spacer 1 (0.05 * inch)%float
                         :: content ++ page_break ++ story_rest)
               end,
               processing :: printed ++ out_rest)
          end
      end
  end.

(** The story of [generate_pdf], or the exception that ends its building. *)
Definition build_story (self : Generator)
  : Result (list Flowable) * list Line :=
  match construct [Paragraph (py "Table of Contents") SectionHeader] with
  | Raise e => (Raise e, [])
  | Ok heading =>
      match create_table_of_contents self with
      | Raise e => (Raise e, [])
      | Ok toc_table =>
          let (sections, out) :=
            process_notes self (List.length (release_notes self))
                          (enumerate (release_notes self)) in
          (match sections with
           | Raise e => Raise e
           | Ok rest =>
               Ok (heading ++ Spacer 1 (0.2 * inch)%float
                     :: toc_table :: PageBreak :: rest)
           end, out)
      end
  end.

Definition print_all (out : list Line) (w : World) : World :=
  fold_left (fun w l => print l w) out w.

(** [generate_pdf(self)]: what it produced, or the exception that leaves
    it, and the world then.  The output file is written when [doc.build]
    ends, and not before. *)
Definition generate_pdf (script_dir : str) (self : Generator) (w : World)
  : Result Generated * World :=
  let w := print (Text (py "Generating PDF...")) w in
  match build_story self with
  | (Raise e, out) => (Raise e, print_all out w)
  | (Ok story, out) =>
      let w := print_all out w in
      let self := set_total_pages self fixed_total_pages in
      match build_failure story with
      | Some (pages_done, e) =>
          let '(_, _, out) :=
            decorate_pages script_dir (files w) self (seq 1 pages_done) in
          (Raise e, print_all out w)
      | None =>
          let pages := seq 1 (page_count story) in
          let '(drawn, self, out) :=
            decorate_pages script_dir (files w) self pages in
          let w := print_all out w in
          let w := {| files := write_file (files w) (output_path self)
                                          (render story drawn);
                      console := console w |} in
          let w := print (Text (py "PDF generated successfully: "
                                   ++ output_path self)) w in
          (Ok {| story := story; decorations := drawn;
                 generator_after := self; world_after := w |}, w)
      end
  end.

(** [main()].  An exception that leaves [generate_pdf] is caught nowhere:
    the interpreter prints the traceback on the error stream, which is not
    part of the world here, and ends with status 1. *)
Definition main (script_dir : str) (w : World) : Ending * World :=
  let yaml_file := path_join script_dir (py "newsData.yaml") in
  let output_file := path_join script_dir (py "CCDI_Hub_Release_Notes.pdf") in
  if negb (exists_path (files w) yaml_file) then
    (Exit 1, print (Text (py "Error: YAML file not found at " ++ yaml_file)) w)
  else
    let (generator, w) := init yaml_file (Some output_file) None w in
    match load_yaml_data generator w with
    | Stop e w => (e, w)
    | Continue generator w =>
        match generate_pdf script_dir generator w with
        | (Ok _, w) => (Exit 0, print (Text (py "Done!")) w)
        | (Raise _, w) => (Exit 1, w)
        end
    end.

End Methods.

End Checked.

(** Sample implementations of the checks, for running the checked methods
    on closed inputs. *)
Module CheckedSamples.

(** Checks that refuse a text that ends inside a tag, and nothing else. *)
Definition checks : ReportLabChecks :=
  {| accepts := fun t => negb (ReferenceParser.ends_in_tag false t);
     complaint := fun t => py "Parse error in paragraph: " ++ t;
     build_failure := fun _ => None |}.

(** [<p>a &lt;b c</p> there <b]: a paragraph whose text, with the character
    reference decoded, holds an opening angle bracket, followed by text that
    ends inside a tag. *)
Definition escaping_fragment : str := py "<p>a &lt;b c</p> there <b".

Definition escaping_soup : node :=
  Samples.document
    [Tag (py "p") [] [NavigableString (py "a <b c")];
     NavigableString (py " there <b")].

(** [<p>ok</p><p>a &lt;b c</p>]: the second paragraph is refused. *)
Definition refused_second_fragment : str := py "<p>ok</p><p>a &lt;b c</p>".

Definition refused_second_soup : node :=
  Samples.document
    [Tag (py "p") [] [NavigableString (py "ok")];
     Tag (py "p") [] [NavigableString (py "a <b c")]].

(** The reference parser, with the trees of the two fragments above, whose
    character references it does not decode. *)
Definition entity_parser : MarkupParser :=
  {| BeautifulSoup := fun html =>
       if PyStr.eqb html escaping_fragment then Ok escaping_soup
       else if PyStr.eqb html refused_second_fragment then Ok refused_second_soup
       else ReferenceParser.parse html |}.

(** A logo with a height and no width. *)
Definition widthless_logo : Drawing :=
  {| width := 0; height := 100; scalings := [] |}.

Definition widthless_svglib : SvgLib :=
  {| svg2rlg := fun _ _ => Ok (Some widthless_logo) |}.

(** An entry whose title ends inside a tag. *)
Definition beta_entry : ReleaseEntry :=
  {| version := Some (py "3.0.0");
     title := Some (py "Release <beta");
     date := Some (py "May 1, 2025");
     fullText := None |}.

End CheckedSamples.

(* ================================================================== *)
(** * Facts about strings *)
(* ================================================================== *)

Lemma str_eqb_eq (a b : str) : PyStr.eqb a b = true <-> a = b.
Proof.
  revert b; induction a as [|x a IH]; intros [|y b]; simpl;
    try (split; [discriminate | discriminate]); try tauto.
  rewrite andb_true_iff, N.eqb_eq, IH.
  split; [intros [-> ->]; reflexivity | intros E; inversion E; auto].
Qed.

Lemma str_eqb_refl (a : str) : PyStr.eqb a a = true.
Proof. apply str_eqb_eq; reflexivity. Qed.

Lemma startswith_app (prefix s : str) : startswith prefix (prefix ++ s) = true.
Proof.
  induction prefix as [|c prefix IH]; simpl; [reflexivity|].
  rewrite N.eqb_refl, IH; reflexivity.
Qed.



(** ** [strip]

    Stripping leaves no whitespace at either end, so stripping twice is
    stripping once. *)

Lemma lstrip_fixed (c : char) (r : str) :
  isspace c = false -> lstrip (c :: r) = c :: r.
Proof. intros H; simpl; rewrite H; reflexivity. Qed.

Lemma lstrip_head (s : str) :
  lstrip s = [] \/ exists c r, lstrip s = c :: r /\ isspace c = false.
Proof.
  induction s as [|c r IH]; [left; reflexivity|].
  simpl; destruct (isspace c) eqn:Hc; [exact IH|].
  right; exists c, r; split; [reflexivity | exact Hc].
Qed.

Lemma lstrip_idempotent (s : str) : lstrip (lstrip s) = lstrip s.
Proof.
  destruct (lstrip_head s) as [E | (c & r & E & Hc)]; rewrite E;
    [reflexivity | apply lstrip_fixed; exact Hc].
Qed.

Lemma lstrip_keeps_last (l : str) (c : char) :
  isspace c = false -> exists l', lstrip (l ++ [c]) = l' ++ [c].
Proof.
  intros Hc; induction l as [|x l IH]; simpl.
  - rewrite Hc; exists []; reflexivity.
  - destruct (isspace x); [exact IH|].
    exists (x :: l); reflexivity.
Qed.

Lemma rstrip_keeps_head (c : char) (r : str) :
  isspace c = false -> exists r', rstrip (c :: r) = c :: r'.
Proof.
  intros Hc; unfold rstrip; simpl rev.
  destruct (@lstrip_keeps_last (rev r) c Hc) as (l' & E).
  rewrite E, rev_app_distr; exists (rev l'); reflexivity.
Qed.

Lemma rstrip_idempotent (s : str) : rstrip (rstrip s) = rstrip s.
Proof.
  unfold rstrip; rewrite rev_involutive, lstrip_idempotent; reflexivity.
Qed.

Lemma strip_idempotent (s : str) : strip (strip s) = strip s.
Proof.
  unfold strip.
  destruct (lstrip_head s) as [E | (c & r & E & Hc)]; rewrite E.
  - reflexivity.
  - destruct (@rstrip_keeps_head c r Hc) as (r' & E').
    rewrite E', (@lstrip_fixed c r' Hc), <- E'.
    apply rstrip_idempotent.
Qed.







(** ** The tag pattern

    The three equations of a leftmost, non-overlapping substitution of
    [<[^>]+>] by the empty string. *)

Lemma re_sub_pending (buf s : str) :
  2 <= List.length buf ->
  re_sub_tags_from (Some buf) s =
    match after_gt s with
    | Some rest => re_sub_tags_from None rest
    | None => rev buf ++ s
    end.
Proof.
  revert buf; induction s as [|c r IH]; intros buf Hlen; simpl.
  - rewrite app_nil_r; reflexivity.
  - destruct (N.eqb c gt_sign).
    + destruct buf as [|b1 [|b2 buf]]; simpl in Hlen; try lia; reflexivity.
    + rewrite IH by (simpl; lia).
      destruct (after_gt r); [reflexivity|].
      simpl; rewrite <- app_assoc; reflexivity.
Qed.

Lemma re_sub_tags_nil : re_sub_tags [] = [].
Proof. reflexivity. Qed.

Lemma re_sub_tags_match (s rest : str) :
  match_tag s = Some rest -> re_sub_tags s = re_sub_tags rest.
Proof.
  destruct s as [|c [|c2 r]]; simpl; try discriminate.
  unfold re_sub_tags; simpl.
  destruct (N.eqb c lt_sign); simpl; [|discriminate].
  destruct (N.eqb c2 gt_sign); simpl; [discriminate|].
  intros H; rewrite re_sub_pending by (simpl; lia).
  rewrite H; reflexivity.
Qed.

Lemma re_sub_no_gt (s : str) :
  after_gt s = None -> re_sub_tags_from None s = s.
Proof.
  induction s as [|c r IH]; simpl; [reflexivity|].
  destruct (N.eqb c gt_sign) eqn:Hgt; [discriminate|].
  intros Hr.
  destruct (N.eqb c lt_sign) eqn:Hlt.
  - destruct r as [|c' r']; [reflexivity|].
    simpl in Hr |- *.
    destruct (N.eqb c' gt_sign); [discriminate|].
    rewrite re_sub_pending by (simpl; lia).
    rewrite Hr; reflexivity.
  - rewrite IH by exact Hr; reflexivity.
Qed.

Lemma re_sub_tags_no_match (c : char) (r : str) :
  match_tag (c :: r) = None -> re_sub_tags (c :: r) = c :: re_sub_tags r.
Proof.
  unfold re_sub_tags; simpl.
  destruct (N.eqb c lt_sign) eqn:Hlt; [|reflexivity].
  apply N.eqb_eq in Hlt; subst c.
  destruct r as [|c2 r2]; [reflexivity|].
  simpl.
  destruct (N.eqb c2 gt_sign) eqn:Hgt; simpl.
  - apply N.eqb_eq in Hgt; subst c2; reflexivity.
  - intros Hr.
    rewrite re_sub_pending by (simpl; lia).
    rewrite Hr; simpl.
    destruct (N.eqb c2 lt_sign) eqn:Hlt2.
    + destruct r2 as [|c3 r3]; [reflexivity|].
      simpl in Hr |- *.
      destruct (N.eqb c3 gt_sign); [discriminate|].
      rewrite re_sub_pending by (simpl; lia).
      rewrite Hr; reflexivity.
    + rewrite re_sub_no_gt by exact Hr; reflexivity.
Qed.

(* ================================================================== *)
(** * The markup block converter *)
(* ================================================================== *)

Section ConverterFacts.

Context {parser : MarkupParser}.

Lemma parse_html_content_self (self : Generator) (html : str) :
  self_after (parse_html_content self html) = self.
Proof.
  unfold parse_html_content.
  destruct (truthy html); [|reflexivity].
  destruct (BeautifulSoup html); reflexivity.
Qed.

Lemma parse_html_content_any_self (self self' : Generator) (html : str) :
  elements (parse_html_content self html)
  = elements (parse_html_content self' html).
Proof.
  unfold parse_html_content.
  destruct (truthy html); [|reflexivity].
  destruct (BeautifulSoup html); reflexivity.
Qed.

Lemma parse_html_content_parsed (self : Generator) (html : str) (soup : node) :
  truthy html = true ->
  BeautifulSoup html = Ok soup ->
  elements (parse_html_content self html) = convert_soup soup.
Proof.
  intros Ht Hp; unfold parse_html_content; rewrite Ht, Hp; reflexivity.
Qed.

Lemma convert_each_self (self : Generator) (fragments : list str) :
  snd (convert_each self fragments) = self.
Proof.
  revert self; induction fragments as [|html rest IH]; intros self; simpl;
    [reflexivity|].
  specialize (IH (self_after (parse_html_content self html))).
  destruct (convert_each _ rest) as [results self_end]; simpl in *.
  rewrite IH; apply parse_html_content_self.
Qed.

End ConverterFacts.




Lemma Forall_flat_map {A B : Type} (P : B -> Prop) (f : A -> list B) (l : list A) :
  (forall a, Forall P (f a)) -> Forall P (flat_map f l).
Proof.
  intros H; induction l as [|a l IH]; simpl; [constructor|].
  apply Forall_app; split; [apply H | exact IH].
Qed.








Lemma block_of_bullet_item (text : str) :
  block_of (bullet_item text) = Some (Spec.ListItem text 0).
Proof. reflexivity. Qed.

Lemma block_of_nested_bullet_item (text : str) :
  block_of (nested_bullet_item text) = Some (Spec.ListItem text 1).
Proof. reflexivity. Qed.

(** ** C9: conversion is deterministic and stateless *)

(** C9.  The block sequence the converter returns for a fragment is the same
    whatever the state of the generator object: it is the same for any two
    states, the call leaves the object as it found it, and it is the same
    after any run of other conversions on the same object. *)
Theorem conversion_is_stateless :
  forall (parser : MarkupParser) (self self' : Generator)
         (others : list str) (html : str),
    elements (parse_html_content self html)
    = elements (parse_html_content self' html)
    /\ self_after (parse_html_content self html) = self
    /\ elements (parse_html_content (snd (convert_each self others)) html)
       = elements (parse_html_content self html).
Proof.
  intros parser self self' others html.
  split; [apply parse_html_content_any_self|].
  split; [apply parse_html_content_self|].
  rewrite convert_each_self; reflexivity.
Qed.

(** ** C2: a list item with a nested list *)

(** C2.  On the fragment of the specification the converter returns five
    list items, not three: the outer item and the two nested items at
    level 1, and then the two nested items once more at level 0, because the
    traversal reaches the nested [ul] as an element of its own. *)
Theorem nested_items_emitted_twice :
  forall (parser : MarkupParser) (self : Generator),
    BeautifulSoup Samples.nested_list_fragment = Ok Samples.nested_list_soup ->
    elements (parse_html_content self Samples.nested_list_fragment)
    = [bullet_item (py "Group A");
       nested_bullet_item (py "X");
       nested_bullet_item (py "Y");
       bullet_item (py "X");
       bullet_item (py "Y")]
    /\ blocks_of (elements (parse_html_content self Samples.nested_list_fragment))
       = Some [Spec.ListItem (py "Group A") 0;
               Spec.ListItem (py "X") 1;
               Spec.ListItem (py "Y") 1;
               Spec.ListItem (py "X") 0;
               Spec.ListItem (py "Y") 0].
Proof.
  intros parser self Hparse.
  rewrite (parse_html_content_parsed self Samples.nested_list_fragment
             eq_refl Hparse).
  split; reflexivity.
Qed.

Lemma nested_items_emitted_twice_witness :
  @BeautifulSoup reference_parser Samples.nested_list_fragment
  = Ok Samples.nested_list_soup
  /\ List.length
       (elements (@parse_html_content reference_parser Samples.generator
                                      Samples.nested_list_fragment)) = 5.
Proof.
  split; [reflexivity|].
  rewrite (proj1 (@nested_items_emitted_twice reference_parser
                    Samples.generator eq_refl)).
  reflexivity.
Defined.

(** ** C10: blank blocks *)


(** C10.  On a list item whose text starts with a colon and which holds a
    nested list, the converter returns a list item with no text at all: the
    text before the first colon is empty and is emitted unchecked. *)
Theorem colon_first_item_is_blank :
  forall (parser : MarkupParser) (self : Generator),
    BeautifulSoup Samples.colon_first_fragment = Ok Samples.colon_first_soup ->
    blocks_of (elements (parse_html_content self Samples.colon_first_fragment))
    = Some [Spec.ListItem [] 0; Spec.ListItem (py "X") 1; Spec.ListItem (py "X") 0]
    /\ Reading.blank (Spec.ListItem [] 0) = true.
Proof.
  intros parser self Hparse.
  rewrite (parse_html_content_parsed self Samples.colon_first_fragment
             eq_refl Hparse).
  split; reflexivity.
Qed.

Lemma colon_first_item_is_blank_witness :
  @BeautifulSoup reference_parser Samples.colon_first_fragment
  = Ok Samples.colon_first_soup
  /\ hd_error
       (elements (@parse_html_content reference_parser Samples.generator
                                      Samples.colon_first_fragment))
     = Some (bullet_item []).
Proof.
  split; [reflexivity|].
  pose proof (@colon_first_item_is_blank reference_parser
                Samples.generator eq_refl) as [H _].
  destruct (elements _) as [|f rest] eqn:E; [discriminate H|].
  vm_compute in E; inversion E; reflexivity.
Defined.

(** ** C3: paragraphs and headings by inline style *)


(** ** C7: list items outside a list *)

(** The script means to handle here the items that are not inside a list,
    and tests the parent alone: in [<ul><li>a<ol><li>b</li></ol></li></ul>]
    the inner item lies inside an unordered list, under an ordered one, and
    the rule emits it. *)
Lemma item_under_another_parent_is_emitted :
  In (Samples.inner_item_ancestors, Samples.inner_item)
     (Bs4.find_all traversed_names Samples.mixed_list_soup)
  /\ Reading.has_ul_ancestor Samples.inner_item_ancestors = true
  /\ Reading.parent_is_ul Samples.inner_item_ancestors = false
  /\ orphan_item_rule Samples.inner_item_ancestors Samples.inner_item
     = [bullet_item (py "b")].
Proof.
  split; [right; right; left; reflexivity|].
  repeat split.
Qed.

(** An item with no list around it and blank text is dropped. *)
Lemma blank_orphan_is_dropped :
  In ([ReferenceParser.document_name], Samples.blank_item)
     (Bs4.find_all traversed_names Samples.blank_item_soup)
  /\ Reading.has_ul_ancestor [ReferenceParser.document_name] = false
  /\ orphan_item_rule [ReferenceParser.document_name] Samples.blank_item = [].
Proof.
  split; [left; reflexivity|].
  split; reflexivity.
Qed.



(* ================================================================== *)
(** * The document assembler *)
(* ================================================================== *)





Section AssemblerFacts.

Context {parser : MarkupParser} {casing : CaseMapping}.







End AssemblerFacts.


(** ** C4: the total page count *)

Section FooterFacts.

Context {svglib : SvgLib} {reportlab : ReportLab}.










End FooterFacts.


(* ================================================================== *)
(** * The source loader and [main] *)
(* ================================================================== *)

Section MainFacts.

Context {parser : MarkupParser} {svglib : SvgLib} {reportlab : ReportLab}
        {casing : CaseMapping} {yamllib : YamlLib}.

Lemma load_failed_ends (e : PyError) (self : Generator) (w : World) :
  @load_failed Generator e w
  = Stop (Exit 1)
         {| files := files w;
            console := console w ++ [ErrorLine (py "Error loading YAML file: ") e] |}.
Proof. reflexivity. Qed.

(** A load that cannot give [data['releaseNotesList']] ends the process
    with status 1, the files as they were, and one more line on the
    console. *)
Lemma load_yaml_data_fails (self : Generator) (w : World) :
  (exists e, read_file (files w) (yaml_file_path self) = Raise e)
  \/ (exists text e,
         read_file (files w) (yaml_file_path self) = Ok text
         /\ safe_load text = Raise e)
  \/ (exists text data,
         read_file (files w) (yaml_file_path self) = Ok text
         /\ safe_load text = Ok data
         /\ Py.getitem release_notes_key data = None) ->
  exists e,
    load_yaml_data self w
    = Stop (Exit 1)
           {| files := files w;
              console := console w
                           ++ [ErrorLine (py "Error loading YAML file: ") e] |}.
Proof.
  unfold load_yaml_data.
  intros [(e & Hr) | [(text & e & Hr & Hl) | (text & data & Hr & Hl & Hg)]].
  - rewrite Hr; eexists; reflexivity.
  - rewrite Hr, Hl; eexists; reflexivity.
  - rewrite Hr, Hl, Hg.
    destruct (Py.contains_key release_notes_key data) as [[|]|];
      eexists; reflexivity.
Qed.

End MainFacts.

(** C6.  When the input file is missing, or cannot be read or parsed, or the
    parsed data has no [releaseNotesList] to index, [main] ends with exit
    status 1, its last console line is the diagnostic, and the file system
    is as it was: no output file is written and no release data is made
    up. *)
Theorem failed_load_exits_with_status_1 :
  forall (parser : MarkupParser) (svglib : SvgLib) (reportlab : ReportLab)
         (casing : CaseMapping) (yamllib : YamlLib)
         (script_dir : str) (w : World),
    let yaml_file := path_join script_dir (py "newsData.yaml") in
    files w yaml_file = None
    \/ (exists e, files w yaml_file = Some (Raise e))
    \/ (exists text e,
           files w yaml_file = Some (Ok text) /\ safe_load text = Raise e)
    \/ (exists text data,
           files w yaml_file = Some (Ok text)
           /\ safe_load text = Ok data
           /\ Py.getitem release_notes_key data = None) ->
    exists (earlier : list Line) (diagnostic : Line),
      main script_dir w
      = (Exit 1,
         {| files := files w;
            console := console w ++ earlier ++ [diagnostic] |})
      /\ Reading.is_load_diagnostic yaml_file diagnostic.
Proof.
  intros parser svglib reportlab casing yamllib script_dir w yaml_file Hcase.
  unfold main; fold yaml_file.
  destruct Hcase as [Hmissing | Hpresent].
  - unfold exists_path; rewrite Hmissing; simpl negb; cbv iota.
    exists [], (Text (py "Error: YAML file not found at " ++ yaml_file)).
    split; [reflexivity | left; reflexivity].
  - assert (Hexists : exists_path (files w) yaml_file = true).
    { unfold exists_path.
      destruct Hpresent as [(e & H) | [(t & e & H & _) | (t & d & H & _)]];
        rewrite H; reflexivity. }
    rewrite Hexists; simpl negb; cbv iota.
    unfold init.
    set (self := {| yaml_file_path := yaml_file |}).
    set (w1 := print (MetadataRepr default_pdf_metadata) w).
    destruct (@load_yaml_data_fails yamllib self w1) as (e & Hload).
    { unfold read_file; simpl.
      destruct Hpresent as [(e & H) | [(t & e & H & Hl) | (t & d & H & Hl & Hg)]];
        rewrite H.
      - left; exists e; reflexivity.
      - right; left; exists t, e; split; [reflexivity | exact Hl].
      - right; right; exists t, d; repeat split; assumption. }
    rewrite Hload.
    exists [MetadataRepr default_pdf_metadata],
           (ErrorLine (py "Error loading YAML file: ") e).
    split; [|right; exists e; reflexivity].
    subst w1; unfold print; simpl.
    rewrite <- app_assoc; reflexivity.
Qed.

Lemma failed_load_exits_with_status_1_witness :
  files Samples.empty_world (path_join (py "/app") (py "newsData.yaml")) = None
  /\ fst (@main reference_parser Samples.svglib Samples.reportlab
                Samples.casing Samples.rejecting_yaml
                (py "/app") Samples.empty_world) = Exit 1.
Proof.
  split; [reflexivity|].
  destruct (@failed_load_exits_with_status_1
              reference_parser Samples.svglib Samples.reportlab
              Samples.casing Samples.rejecting_yaml
              (py "/app") Samples.empty_world (or_introl eq_refl))
    as (earlier & diagnostic & Hmain & _).
  rewrite Hmain; reflexivity.
Defined.

(** The other three cases happen too, and a load that succeeds does write
    the output file. *)
Example unparsable_input_exits :
  @main reference_parser Samples.svglib Samples.reportlab Samples.casing
        Samples.rejecting_yaml (py "/app") Samples.input_world
  = (Exit 1,
     {| files := files Samples.input_world;
        console := [MetadataRepr default_pdf_metadata;
                    ErrorLine (py "Error loading YAML file: ")
                              (LibraryError (py "could not find expected ':'"))] |}).
Proof. reflexivity. Qed.

Example missing_key_exits :
  @main reference_parser Samples.svglib Samples.reportlab Samples.casing
        (Samples.constant_yaml (YDict [(YStr (py "news"), YList [])]))
        (py "/app") Samples.input_world
  = (Exit 1,
     {| files := files Samples.input_world;
        console := [MetadataRepr default_pdf_metadata;
                    ErrorLine (py "Error loading YAML file: ")
                              MissingReleaseNotesList] |}).
Proof. reflexivity. Qed.

Example successful_run_writes_output :
  let result :=
    @main reference_parser Samples.svglib Samples.reportlab Samples.casing
          (Samples.constant_yaml
             (YDict [(YStr release_notes_key,
                      YList [YDict [(YStr (py "version"), YStr (py "2.1.0"));
                                    (YStr (py "title"), YStr (py "CCDI Hub 2.1.0"))]])]))
          (py "/app") Samples.input_world in
  fst result = Exit 0
  /\ files (snd result) (py "/app/CCDI_Hub_Release_Notes.pdf")
     = Some (Ok (py "%PDF-1.4"))
  /\ files Samples.input_world (py "/app/CCDI_Hub_Release_Notes.pdf") = None.
Proof. vm_compute. repeat split; reflexivity. Qed.

(* ================================================================== *)
(** * A run on the sample release notes *)
(* ================================================================== *)

Example sample_story :
  fst (fst (@build_story reference_parser Samples.casing Samples.generator))
  = [Paragraph (py "Table of Contents") SectionHeader;
     Spacer 1 (0.2 * inch)%float;
     Table [toc_header_row;
            toc_row 0 Samples.first_entry;
            toc_row 1 Samples.second_entry];
     PageBreak;
     title_of (0, Samples.first_entry);
     Paragraph (py "<b>DATE OF RELEASE:</b> MARCH 3, 2025") ReleaseDate;
     Spacer 1 (0.05 * inch)%float;
     Paragraph (py "Overview") SectionHeader;
     PageBreak;
     title_of (1, Samples.second_entry);
     Paragraph (py "<b>DATE OF RELEASE:</b> UNKNOWN DATE") ReleaseDate;
     Spacer 1 (0.05 * inch)%float;
     bullet_item (py "Group A");
     nested_bullet_item (py "X");
     nested_bullet_item (py "Y");
     bullet_item (py "X");
     bullet_item (py "Y")].
Proof. vm_compute. reflexivity. Qed.

Example sample_footers :
  let g := @generate_pdf reference_parser Samples.svglib Samples.reportlab
                         Samples.casing (py "/app") Samples.generator
                         Samples.input_world in
  List.length (decorations g) = 3
  /\ List.map (fun ops => existsb
                            (fun op => match op with
                                       | DrawString _ _ t =>
                                           startswith (py "Page ") t
                                           && contains (py " of 37") t
                                       | _ => false
                                       end) ops)
              (decorations g)
     = [true; true; true]
  /\ In (DrawString 472 50 (py "Page 1 of 37")) (nth 0 (decorations g) []).
Proof.
  vm_compute.
  split; [reflexivity|].
  split; [reflexivity|].
  do 14 right; left; reflexivity.
Qed.

(* ================================================================== *)
(** * Further properties of the converter *)
(* ================================================================== *)



(** ** Splitting at a colon *)

Lemma contains_char_cons (c x : char) (s : str) :
  contains [c] (x :: s) = N.eqb c x || contains [c] s.
Proof. simpl; rewrite andb_true_r; reflexivity. Qed.

Lemma split_hd_no_separator (c : char) (s : str) :
  contains [c] (hd [] (split c s)) = false.
Proof.
  induction s as [|x s IH]; [reflexivity|].
  simpl split.
  destruct (N.eqb_spec x c) as [E|E]; [reflexivity|].
  destruct (split c s) as [|h t]; simpl hd in *.
  - rewrite contains_char_cons.
    destruct (N.eqb_spec c x); [congruence | reflexivity].
  - rewrite contains_char_cons, IH.
    destruct (N.eqb_spec c x); [congruence | reflexivity].
Qed.

Lemma split_hd_prefix (c : char) (s : str) :
  startswith (hd [] (split c s)) s = true.
Proof.
  induction s as [|x s IH]; [reflexivity|].
  simpl split.
  destruct (N.eqb x c); [reflexivity|].
  destruct (split c s) as [|h t]; simpl hd in *.
  - simpl; rewrite N.eqb_refl; reflexivity.
  - simpl; rewrite N.eqb_refl; exact IH.
Qed.

Lemma startswith_refl (s : str) : startswith s s = true.
Proof.
  induction s as [|x s IH]; [reflexivity|].
  simpl; rewrite N.eqb_refl; exact IH.
Qed.

(** ** Text outside the traversed elements *)

Lemma walk_string (ancestors : list str) (n : node) :
  Structure.is_string n = true -> Bs4.walk ancestors n = [].
Proof. destruct n; [reflexivity | reflexivity | discriminate]. Qed.

Lemma walk_strings (ancestors : list str) (contents : list node) :
  forallb Structure.is_string contents = true ->
  flat_map (Bs4.walk ancestors) contents = [].
Proof.
  induction contents as [|c cs IH]; [reflexivity|].
  simpl; intros H; apply andb_true_iff in H; destruct H as [Hc Hcs].
  rewrite (walk_string ancestors c Hc), (IH Hcs); reflexivity.
Qed.

(** A fragment that parses to text alone, with no element at all, gives no
    block: text that is not inside a paragraph, heading or list item is
    left out of the document, where the same text would be kept as a
    paragraph had the parser raised. *)
Theorem bare_text_is_dropped :
  forall (parser : MarkupParser) (self : Generator) (html : str)
         (name : str) (attrs : list (str * str)) (contents : list node),
    BeautifulSoup html = Ok (Tag name attrs contents) ->
    forallb Structure.is_string contents = true ->
    elements (parse_html_content self html) = [].
Proof.
  intros parser self html name attrs contents Hparse Hstrings.
  unfold parse_html_content.
  destruct (truthy html); [|reflexivity].
  rewrite Hparse; cbn [elements].
  unfold convert_soup, Bs4.find_all, Bs4.descendants.
  rewrite (walk_strings [name] contents Hstrings); reflexivity.
Qed.

Lemma bare_text_is_dropped_witness :
  @BeautifulSoup reference_parser (py "Bug fixes and improvements.")
  = Ok (Samples.document [NavigableString (py "Bug fixes and improvements.")])
  /\ elements (@parse_html_content reference_parser Samples.generator
                                   (py "Bug fixes and improvements.")) = []
  /\ elements (@parse_html_content Samples.rejecting_parser Samples.generator
                                   (py "Bug fixes and improvements."))
     = [Paragraph (py "Bug fixes and improvements.") ReleaseContent].
Proof.
  split; [reflexivity|].
  split; [|reflexivity].
  exact (@bare_text_is_dropped reference_parser Samples.generator
           (py "Bug fixes and improvements.") ReferenceParser.document_name []
           [NavigableString (py "Bug fixes and improvements.")]
           eq_refl eq_refl).
Defined.

(** ** The tag pattern of the fallback *)

Lemma after_gt_shorter (s rest : str) :
  after_gt s = Some rest -> List.length rest < List.length s.
Proof.
  revert rest; induction s as [|c r IH]; simpl; [discriminate|].
  intros rest; destruct (N.eqb c gt_sign).
  - intros E; inversion E; subst; lia.
  - intros E; specialize (IH rest E); lia.
Qed.

Lemma match_tag_shorter (s rest : str) :
  match_tag s = Some rest -> List.length rest < List.length s.
Proof.
  destruct s as [|c [|c2 r]]; simpl; try discriminate.
  destruct (_ && _); [|discriminate].
  intros E; apply after_gt_shorter in E; lia.
Qed.

Lemma no_match_after_substitution (c : char) (r : str) :
  match_tag (c :: r) = None -> match_tag (c :: re_sub_tags r) = None.
Proof.
  destruct r as [|c2 r2]; [intros _; reflexivity|].
  unfold match_tag at 1.
  destruct (N.eqb c lt_sign) eqn:Hlt; cbn [andb].
  - destruct (N.eqb c2 gt_sign) eqn:Hgt; cbn [negb].
    + intros _.
      assert (Hno : match_tag (c2 :: r2) = None).
      { apply N.eqb_eq in Hgt; subst c2.
        destruct r2; reflexivity. }
      rewrite (re_sub_tags_no_match c2 r2 Hno).
      unfold match_tag; rewrite Hlt, Hgt; reflexivity.
    + intros Hr.
      assert (Hno : after_gt (c2 :: r2) = None) by (simpl; rewrite Hgt; exact Hr).
      unfold re_sub_tags; rewrite (re_sub_no_gt (c2 :: r2) Hno).
      unfold match_tag; rewrite Hlt, Hgt; exact Hr.
  - intros _.
    destruct (re_sub_tags (c2 :: r2)) as [|x xs]; [reflexivity|].
    unfold match_tag; rewrite Hlt; reflexivity.
Qed.

Lemma substitution_leaves_no_tag (n : nat) :
  forall s : str,
    List.length s <= n -> Structure.has_tag (re_sub_tags s) = false.
Proof.
  induction n as [|n IH]; intros [|c r] Hlen; try reflexivity;
    try (simpl in Hlen; lia).
  destruct (match_tag (c :: r)) as [rest|] eqn:Hm.
  - rewrite (re_sub_tags_match (c :: r) Hm).
    apply IH.
    apply match_tag_shorter in Hm; simpl in Hlen, Hm; lia.
  - rewrite (re_sub_tags_no_match c r Hm).
    cbn [Structure.has_tag].
    rewrite (no_match_after_substitution c r Hm).
    apply IH; simpl in Hlen; lia.
Qed.

(** The substitution of the fallback removes every tag: in its result the
    tag pattern matches nowhere, so a second substitution would change
    nothing; and a fragment with no closing angle bracket passes through
    as it is. *)
Theorem fallback_text_has_no_tag :
  forall s : str,
    Structure.has_tag (re_sub_tags s) = false
    /\ (after_gt s = None -> re_sub_tags s = s).
Proof.
  intros s; split.
  - apply (@substitution_leaves_no_tag (List.length s) s); lia.
  - apply re_sub_no_gt.
Qed.

Lemma fallback_text_has_no_tag_witness :
  re_sub_tags (py "1 < 2 and <b") = py "1 < 2 and <b"
  /\ re_sub_tags (py "a <<b>> c <> d") = py "a > c <> d".
Proof.
  split; [|reflexivity].
  exact (proj2 (fallback_text_has_no_tag (py "1 < 2 and <b")) eq_refl).
Defined.

(* ================================================================== *)
(** * Further properties of the page decorator *)
(* ================================================================== *)

Section LogoFacts.

Context {svglib : SvgLib}.

(** The object after [get_logo_drawing] differs from the object before in
    its logo cache at most, and the cache holds what the call returned. *)
Lemma get_logo_drawing_cache (script_dir : str) (fs : FileSystem)
      (self : Generator) (h : float) :
  let r := get_logo_drawing script_dir fs self h in
  snd (fst r) = set_logo_drawing self (fst (fst r))
  /\ logo_drawing (snd (fst r)) = fst (fst r).
Proof.
  unfold get_logo_drawing.
  destruct (logo_drawing self) as [d|] eqn:Hd.
  - cbn [fst snd]; split; [|exact Hd].
    destruct self; simpl in *; subst; reflexivity.
  - destruct (exists_path fs _).
    + destruct (convert_svg_to_drawing fs _ h) as [d out]; split; reflexivity.
    + cbn [fst snd]; split; [|exact Hd].
      destruct self; simpl in *; subst; reflexivity.
Qed.

End LogoFacts.

(** The logo is converted once: after a call of [get_logo_drawing] that
    returned a drawing, every later call returns that drawing, prints
    nothing and leaves the object alone, whatever the files and the target
    height then are.  A call that returned no drawing leaves the object as
    it was, so the next page tries again. *)
Theorem logo_is_converted_once :
  forall (svglib : SvgLib) (script_dir : str) (fs fs' : FileSystem)
         (self : Generator) (h h' : float),
    let r := get_logo_drawing script_dir fs self h in
    (forall drawing,
        fst (fst r) = Some drawing ->
        get_logo_drawing script_dir fs' (snd (fst r)) h'
        = (Some drawing, snd (fst r), []))
    /\ (fst (fst r) = None -> logo_drawing self = None /\ snd (fst r) = self).
Proof.
  intros svglib script_dir fs fs' self h h' r.
  destruct (get_logo_drawing_cache script_dir fs self h) as [Hself Hcache].
  fold r in Hself, Hcache.
  split.
  - intros drawing Hsome.
    unfold get_logo_drawing at 1.
    rewrite Hcache, Hsome; reflexivity.
  - intros Hnone.
    assert (Hbefore : logo_drawing self = None).
    { subst r; unfold get_logo_drawing in Hnone.
      destruct (logo_drawing self); [discriminate Hnone | reflexivity]. }
    split; [exact Hbefore|].
    rewrite Hself, Hnone.
    destruct self; simpl in *; subst; reflexivity.
Qed.

Lemma logo_is_converted_once_witness :
  let first :=
    @get_logo_drawing Samples.svglib (py "/app") Samples.logo_world
                      Samples.generator 50%float in
  option_map width (fst (fst first)) = Some 200%float
  /\ option_map width
       (fst (fst (@get_logo_drawing Samples.svglib (py "/app") Samples.empty_files
                                    (snd (fst first)) 80%float)))
     = Some 200%float.
Proof.
  split; [reflexivity|].
  rewrite (proj1 (@logo_is_converted_once
                    Samples.svglib (py "/app") Samples.logo_world
                    Samples.empty_files Samples.generator 50%float 80%float)
                 (Build_Drawing 200 50 [(0.5, 0.5)]%float) eq_refl).
  reflexivity.
Defined.

(** The header of a page is always one of three: the converted logo, else
    the PNG beside the script at its fixed size, else the branding text
    with a warning on the console.  The PNG is looked for only when there
    is no drawing, and the text is drawn only when there is no PNG either. *)
Theorem header_is_logo_png_or_text :
  forall (svglib : SvgLib) (script_dir : str) (fs : FileSystem)
         (self : Generator),
    let r := draw_header script_dir fs self in
    let png := path_join script_dir (py "nih_logo.png") in
    (exists drawing,
        fst (fst r) = Structure.logo_header drawing
        /\ logo_drawing (snd (fst r)) = Some drawing)
    \/ (fst (fst r) = Structure.png_header png
        /\ logo_drawing (snd (fst r)) = None
        /\ exists_path fs png = true)
    \/ (fst (fst r) = Structure.text_header
        /\ logo_drawing (snd (fst r)) = None
        /\ exists_path fs png = false
        /\ exists earlier,
            snd r = earlier
                      ++ [ErrorLine (py "Warning: Could not load logo: ")
                                    NoLogoFiles]).
Proof.
  intros svglib script_dir fs self r png; subst r; unfold draw_header.
  destruct (get_logo_drawing_cache script_dir fs self 50%float) as [_ Hcache].
  destruct (get_logo_drawing script_dir fs self 50%float)
    as [[drawing self'] out]; cbn [fst snd] in Hcache.
  destruct drawing as [d|].
  - left; exists d; split; [reflexivity | exact Hcache].
  - fold png; destruct (exists_path fs png) eqn:Hpng; right.
    + left; repeat split; [exact Hcache].
    + right; repeat split; [exact Hcache|].
      exists out; reflexivity.
Qed.

(* ================================================================== *)
(** * Further properties of the document assembler *)
(* ================================================================== *)

Section StoryFacts.

Context {parser : MarkupParser} {casing : CaseMapping}.





End StoryFacts.



(** ** Printing and the page callback *)


Section DecorationFacts.

Context {svglib : SvgLib} {reportlab : ReportLab}.



End DecorationFacts.

(* ================================================================== *)
(** * Further properties of the loader and of [main] *)
(* ================================================================== *)

Lemma lookup_is_member (key : str) (items : list (yaml * yaml)) (v : yaml) :
  Py.lookup key items = Some v ->
  existsb (fun kv => Py.is_str key (fst kv)) items = true.
Proof.
  induction items as [|[k x] rest IH]; simpl; [discriminate|].
  destruct (Py.is_str key k); [reflexivity|].
  intros H; rewrite (IH H); reflexivity.
Qed.

Lemma getitem_is_member (key : str) (data v : yaml) :
  Py.getitem key data = Some v -> Py.contains_key key data = Some true.
Proof.
  destruct data as [| | | |items]; simpl; try discriminate.
  intros H; rewrite (lookup_is_member key items H); reflexivity.
Qed.

Lemma entries_of_list_nth (ys : list yaml) :
  forall notes : list ReleaseEntry,
    entries_of_list ys = Some notes ->
    List.length notes = List.length ys
    /\ forall (i : nat) (y : yaml),
        nth_error ys i = Some y ->
        exists e, entry_of y = Some e /\ nth_error notes i = Some e.
Proof.
  induction ys as [|y ys IH]; intros notes; simpl.
  - intros E; inversion E; subst; split; [reflexivity|].
    intros [|i] y'; discriminate.
  - destruct (entry_of y) as [e|] eqn:He; [|discriminate].
    destruct (entries_of_list ys) as [es|]; [|discriminate].
    intros E; inversion E; subst.
    destruct (IH es eq_refl) as [Hlen Hnth].
    split; [simpl; rewrite Hlen; reflexivity|].
    intros [|i] y' Hy; simpl in Hy.
    + inversion Hy; subst; exists e; split; [exact He | reflexivity].
    + exact (Hnth i y' Hy).
Qed.

Lemma load_yaml_data_succeeds {yamllib : YamlLib} (self : Generator) (w : World)
      (text : str) (data : yaml) (ys : list yaml) (notes : list ReleaseEntry) :
  read_file (files w) (yaml_file_path self) = Ok text ->
  safe_load text = Ok data ->
  Py.getitem release_notes_key data = Some (YList ys) ->
  entries_of_list ys = Some notes ->
  load_yaml_data self w
  = Continue (set_release_notes self notes)
             {| files := files w;
                console := console w
                             ++ [Text (py "Loaded " ++ of_nat (List.length ys)
                                          ++ py " release notes entries")] |}.
Proof.
  intros Hread Hload Hget Hentries.
  unfold load_yaml_data.
  rewrite Hread, Hload, (getitem_is_member _ _ Hget), Hget.
  cbn [Py.len entries_of]; rewrite Hentries; reflexivity.
Qed.

(** When the input file reads and parses to a dictionary whose
    [releaseNotesList] is a list of entries, [load_yaml_data] goes on with
    the object holding those entries, as many as the list has and in its
    order, and with one line on the console that tells their number; the
    rest of the object and the files are as they were. *)
Theorem load_keeps_the_entries_in_order :
  forall (yamllib : YamlLib) (self : Generator) (w : World)
         (text : str) (data : yaml) (ys : list yaml) (notes : list ReleaseEntry),
    read_file (files w) (yaml_file_path self) = Ok text ->
    safe_load text = Ok data ->
    Py.getitem release_notes_key data = Some (YList ys) ->
    entries_of_list ys = Some notes ->
    load_yaml_data self w
    = Continue (set_release_notes self notes)
               {| files := files w;
                  console := console w
                               ++ [Text (py "Loaded " ++ of_nat (List.length ys)
                                            ++ py " release notes entries")] |}
    /\ List.length notes = List.length ys
    /\ forall (i : nat) (y : yaml),
        nth_error ys i = Some y ->
        exists e, entry_of y = Some e /\ nth_error notes i = Some e.
Proof.
  intros yamllib self w text data ys notes Hread Hload Hget Hentries.
  split; [|exact (entries_of_list_nth ys Hentries)].
  exact (@load_yaml_data_succeeds yamllib self w text data ys notes
           Hread Hload Hget Hentries).
Qed.

Lemma load_keeps_the_entries_in_order_witness :
  exists g w,
    @load_yaml_data
      (Samples.constant_yaml
         (YDict [(YStr release_notes_key,
                  YList [YDict [(YStr (py "version"), YStr (py "2.1.0"))];
                         YDict [(YStr (py "title"), YStr (py "Fixes"))]])]))
      Samples.generator Samples.input_world
    = Continue g w
    /\ List.map version (release_notes g) = [Some (py "2.1.0"); None]
    /\ List.map title (release_notes g) = [None; Some (py "Fixes")].
Proof.
  eexists; eexists; split.
  - exact (proj1 (@load_keeps_the_entries_in_order
                    (Samples.constant_yaml
                       (YDict [(YStr release_notes_key,
                                YList [YDict [(YStr (py "version"), YStr (py "2.1.0"))];
                                       YDict [(YStr (py "title"), YStr (py "Fixes"))]])]))
                    Samples.generator Samples.input_world
                    (py "releaseNotesList: []") _ _ _
                    eq_refl eq_refl eq_refl eq_refl)).
  - split; reflexivity.
Defined.

(** A [releaseNotesList] key whose value has no length, as when the key is
    written with nothing after it, is a load error: the process ends with
    status 1 and is not run as if the list were empty. *)
Theorem unsized_release_notes_is_an_error :
  forall (yamllib : YamlLib) (self : Generator) (w : World)
         (text : str) (data value : yaml),
    read_file (files w) (yaml_file_path self) = Ok text ->
    safe_load text = Ok data ->
    Py.getitem release_notes_key data = Some value ->
    Py.len value = None ->
    load_yaml_data self w
    = Stop (Exit 1)
           {| files := files w;
              console := console w
                           ++ [ErrorLine (py "Error loading YAML file: ") TypeError] |}.
Proof.
  intros yamllib self w text data value Hread Hload Hget Hlen.
  unfold load_yaml_data.
  rewrite Hread, Hload, (getitem_is_member _ _ Hget), Hget, Hlen; reflexivity.
Qed.

Lemma unsized_release_notes_is_an_error_witness :
  @load_yaml_data
    (Samples.constant_yaml (YDict [(YStr release_notes_key, YNull)]))
    Samples.generator Samples.input_world
  = Stop (Exit 1)
         {| files := files Samples.input_world;
            console := [ErrorLine (py "Error loading YAML file: ") TypeError] |}.
Proof.
  exact (@unsized_release_notes_is_an_error
           (Samples.constant_yaml (YDict [(YStr release_notes_key, YNull)]))
           Samples.generator Samples.input_world
           (py "releaseNotesList: []")
           (YDict [(YStr release_notes_key, YNull)]) YNull
           eq_refl eq_refl eq_refl eq_refl).
Defined.

Lemma load_yaml_data_effects {yamllib : YamlLib} (self : Generator) (w : World) :
  let step := load_yaml_data self w in
  files (Structure.world_of step) = files w
  /\ (exists added, console (Structure.world_of step) = console w ++ added)
  /\ match step with
     | Continue g _ => g = set_release_notes self (release_notes g)
     | Stop e _ => e = Exit 1 \/ e = OutsideModel
     end.
Proof.
  intros step; subst step; unfold load_yaml_data, load_failed.
  destruct (read_file (files w) (yaml_file_path self)) as [text|e].
  2: { cbn; repeat split; [eexists; reflexivity | left; reflexivity]. }
  destruct (safe_load text) as [data|e].
  2: { cbn; repeat split; [eexists; reflexivity | left; reflexivity]. }
  destruct (Py.contains_key release_notes_key data) as [[|]|].
  2, 3: cbn; repeat split; [eexists; reflexivity | left; reflexivity].
  destruct (Py.getitem release_notes_key data) as [value|].
  2: { cbn; repeat split; [eexists; reflexivity | left; reflexivity]. }
  destruct (Py.len value) as [n|].
  2: { cbn; repeat split; [eexists; reflexivity | left; reflexivity]. }
  destruct (entries_of value) as [notes|]; cbn.
  - repeat split; eexists; reflexivity.
  - repeat split; [eexists; reflexivity | right; reflexivity].
Qed.

(** Whatever it finds, [load_yaml_data] leaves the files as they are and
    only adds lines to the console; when it goes on, the object it hands on
    differs from the one it was given in the release notes alone, and when
    it stops with an exit status that status is 1. *)
Theorem load_touches_no_file :
  forall (yamllib : YamlLib) (self : Generator) (w : World),
    let step := load_yaml_data self w in
    files (Structure.world_of step) = files w
    /\ (exists added, console (Structure.world_of step) = console w ++ added)
    /\ match step with
       | Continue g _ => g = set_release_notes self (release_notes g)
       | Stop e _ => e = Exit 1 \/ e = OutsideModel
       end.
Proof.
  intros yamllib self w; apply load_yaml_data_effects.
Qed.

(** ** Paths *)




(* ================================================================== *)
(** * Plain list items, and a logo that cannot be converted *)
(* ================================================================== *)




Section LogoRetry.

Context {svglib : SvgLib} {reportlab : ReportLab}.

Lemma failed_conversion_prints (fs : FileSystem) (svg_path : str) (h : float) :
  fst (convert_svg_to_drawing fs svg_path h) = None ->
  List.length (snd (convert_svg_to_drawing fs svg_path h)) = 1.
Proof.
  unfold convert_svg_to_drawing.
  destruct (svg2rlg fs svg_path) as [[drawing|]|e]; try reflexivity.
  destruct (_ && _); discriminate.
Qed.

Lemma page_without_logo (script_dir : str) (fs : FileSystem)
      (self : Generator) (page_num : nat) :
  logo_drawing self = None ->
  exists_path fs (path_join script_dir (py "Portal_Logo.svg")) = true ->
  fst (convert_svg_to_drawing
         fs (path_join script_dir (py "Portal_Logo.svg")) 50%float) = None ->
  let r := add_header_footer script_dir fs self page_num in
  logo_drawing (snd (fst r)) = None
  /\ existsb Structure.draws_logo (fst (fst r)) = false
  /\ 1 <= List.length (snd r).
Proof.
  intros Hcache Hsvg Hfail r; subst r.
  pose proof (failed_conversion_prints _ _ _ Hfail) as Hline.
  unfold add_header_footer, create_header_footer, draw_header, get_logo_drawing.
  rewrite Hcache, Hsvg.
  destruct (convert_svg_to_drawing fs _ 50%float) as [d out];
    cbn [fst snd] in Hfail, Hline; subst d.
  destruct (exists_path fs (path_join script_dir (py "nih_logo.png")));
    cbn [fst snd set_logo_drawing logo_drawing].
  - split; [reflexivity|].
    split; [|lia].
    rewrite !existsb_app; destruct (dict_has _ _); reflexivity.
  - split; [reflexivity|].
    split; [|rewrite length_app; lia].
    rewrite !existsb_app; destruct (dict_has _ _); reflexivity.
Qed.

Lemma pages_without_logo (script_dir : str) (fs : FileSystem) (pages : list nat) :
  exists_path fs (path_join script_dir (py "Portal_Logo.svg")) = true ->
  fst (convert_svg_to_drawing
         fs (path_join script_dir (py "Portal_Logo.svg")) 50%float) = None ->
  forall self : Generator,
    logo_drawing self = None ->
    let r := decorate_pages script_dir fs self pages in
    logo_drawing (snd (fst r)) = None
    /\ Forall (fun ops => existsb Structure.draws_logo ops = false) (fst (fst r))
    /\ List.length pages <= List.length (snd r).
Proof.
  intros Hsvg Hfail.
  induction pages as [|page_num rest IH]; intros self Hcache.
  - cbn; repeat split; [exact Hcache | constructor | lia].
  - cbn [decorate_pages].
    destruct (page_without_logo script_dir fs self page_num Hcache Hsvg Hfail)
      as (H1 & H2 & H3).
    destruct (add_header_footer script_dir fs self page_num)
      as [[ops self1] out]; cbn [fst snd] in H1, H2, H3.
    destruct (IH self1 H1) as (H4 & H5 & H6).
    destruct (decorate_pages script_dir fs self1 rest)
      as [[ops_rest self_end] out_rest]; cbn [fst snd] in H4, H5, H6 |- *.
    split; [exact H4|].
    split; [constructor; assumption|].
    rewrite length_app; simpl; lia.
Qed.

End LogoRetry.

(** When the SVG logo is there and cannot be converted, the failure is not
    remembered: the conversion is tried again on every page, each page
    prints at least one line about it, no page shows the logo, and the
    cache is still empty after the last page. *)
Theorem unconvertible_logo_is_retried_on_every_page :
  forall (svglib : SvgLib) (reportlab : ReportLab) (script_dir : str)
         (fs : FileSystem) (self : Generator) (pages : list nat),
    logo_drawing self = None ->
    exists_path fs (path_join script_dir (py "Portal_Logo.svg")) = true ->
    fst (convert_svg_to_drawing
           fs (path_join script_dir (py "Portal_Logo.svg")) 50%float) = None ->
    let r := decorate_pages script_dir fs self pages in
    logo_drawing (snd (fst r)) = None
    /\ Forall (fun ops => existsb Structure.draws_logo ops = false) (fst (fst r))
    /\ List.length pages <= List.length (snd r).
Proof.
  intros svglib reportlab script_dir fs self pages Hcache Hsvg Hfail.
  exact (pages_without_logo script_dir fs pages Hsvg Hfail self Hcache).
Qed.

Lemma unconvertible_logo_is_retried_on_every_page_witness :
  3 <= List.length
         (snd (@decorate_pages Samples.broken_svglib Samples.reportlab (py "/app")
                               Samples.logo_world Samples.generator [1; 2; 3]))
  /\ List.length
       (snd (@decorate_pages Samples.broken_svglib Samples.reportlab (py "/app")
                             Samples.logo_world Samples.generator [1; 2; 3]))
     = 6.
Proof.
  split; [|reflexivity].
  exact (proj2 (proj2 (@unconvertible_logo_is_retried_on_every_page
                         Samples.broken_svglib Samples.reportlab (py "/app")
                         Samples.logo_world Samples.generator [1; 2; 3]
                         eq_refl eq_refl eq_refl))).
Defined.

(* ================================================================== *)
(** * The converter with ReportLab's checks *)
(* ================================================================== *)

Section CheckedConverterFacts.

Context {parser : MarkupParser} {checks : ReportLabChecks}.

Lemma append_each_app (a : list Flowable) :
  forall (elements b : list Flowable),
    Checked.append_each elements (a ++ b)
    = match Checked.append_each elements a with
      | (elements', None) => Checked.append_each elements' b
      | stopped => stopped
      end.
Proof.
  induction a as [|f a IH]; intros elements b; [reflexivity|].
  cbn [app Checked.append_each].
  destruct (Checked.rejected f); [reflexivity | apply IH].
Qed.

Lemma append_each_all (calls : list Flowable) :
  forall elements : list Flowable,
    forallb Checked.constructs calls = true ->
    Checked.append_each elements calls = (elements ++ calls, None).
Proof.
  induction calls as [|f calls IH]; intros elements H.
  - cbn; rewrite app_nil_r; reflexivity.
  - cbn [forallb] in H; apply andb_true_iff in H; destruct H as [Hf Hrest].
    cbn [Checked.append_each]; unfold Checked.constructs in Hf.
    destruct (Checked.rejected f); [discriminate|].
    rewrite (IH _ Hrest), <- app_assoc; reflexivity.
Qed.


Lemma append_each_stops (calls : list Flowable) :
  forall elements : list Flowable,
    forallb Checked.constructs calls = false ->
    exists t, snd (Checked.append_each elements calls) = Some t.
Proof.
  induction calls as [|f calls IH]; intros elements H; [discriminate|].
  cbn [forallb] in H; cbn [Checked.append_each].
  unfold Checked.constructs in H.
  destruct (Checked.rejected f) as [t|]; [exists t; reflexivity|].
  apply IH; exact H.
Qed.

Lemma convert_loop_calls (found : list (list str * node)) :
  forall elements : list Flowable,
    Checked.convert_loop elements found
    = Checked.append_each
        elements
        (flat_map (fun e => convert_element (fst e) (snd e)) found).
Proof.
  induction found as [|e rest IH]; intros elements; [reflexivity|].
  cbn [Checked.convert_loop flat_map].
  rewrite append_each_app.
  destruct (Checked.append_each elements (convert_element (fst e) (snd e)))
    as [elements' [t|]]; [reflexivity | apply IH].
Qed.

(** The checked method on a fragment that parses: the calls of the loop in
    order, up to the first refused, and then the [except] block. *)
Lemma checked_parsed (self : Generator) (html : str) (soup : node) :
  truthy html = true ->
  BeautifulSoup html = Ok soup ->
  Checked.parse_html_content self html
  = match Checked.append_each [] (convert_soup soup) with
    | (elements, None) => (Ok elements, [])
    | (elements, Some t) => Checked.except_block html elements (complaint t)
    end.
Proof.
  intros Hhtml Hparse; unfold Checked.parse_html_content.
  rewrite Hhtml, Hparse, convert_loop_calls; reflexivity.
Qed.



End CheckedConverterFacts.

(** ** C3: paragraphs and headings by inline style, with the checks *)



(** ** C5: the fallback, with the checks *)

(** C5.  When the parser raises, the method returns the fragment with its
    tags removed and stripped, as one plain paragraph, or nothing when no
    text is left, as long as ReportLab accepts that text.  But when the
    [except] block is entered, from the parser or from a refused block of
    the loop, and ReportLab refuses the stripped text, the exception of the
    block's own [Paragraph] leaves the method: it is inside no [try]. *)
Theorem fallback_paragraph_is_unprotected :
  forall (parser : MarkupParser) (checks : ReportLabChecks)
         (self : Generator) (html : str),
    let plain_text := strip (re_sub_tags html) in
    (forall e,
        BeautifulSoup html = Raise e ->
        (truthy plain_text = false ->
         fst (Checked.parse_html_content self html) = Ok [])
        /\ (truthy plain_text = true ->
            accepts plain_text = true ->
            fst (Checked.parse_html_content self html)
            = Ok [Paragraph plain_text ReleaseContent]))
    /\ (truthy html = true ->
        (exists e, BeautifulSoup html = Raise e)
        \/ (exists soup,
               BeautifulSoup html = Ok soup
               /\ forallb Checked.constructs (convert_soup soup) = false) ->
        truthy plain_text = true ->
        accepts plain_text = false ->
        fst (Checked.parse_html_content self html)
        = Raise (complaint plain_text)).
Proof.
  intros parser checks self html plain_text; split.
  - intros e Hraise; unfold Checked.parse_html_content.
    destruct html as [|c html]; [split; [reflexivity | discriminate]|].
    cbn [truthy]; rewrite Hraise; unfold Checked.except_block.
    fold plain_text; split.
    + intros Hblank; rewrite Hblank; reflexivity.
    + intros Htext Hok; rewrite Htext, Hok; reflexivity.
  - intros Hhtml Hentered Htext Hrefused.
    destruct Hentered as [(e & Hraise) | (soup & Hparse & Hcalls)].
    + unfold Checked.parse_html_content, Checked.except_block.
      fold plain_text; rewrite Hhtml, Hraise, Htext, Hrefused; reflexivity.
    + rewrite (@checked_parsed parser checks self html soup Hhtml Hparse).
      destruct (append_each_stops (convert_soup soup) [] Hcalls) as (t & Ht).
      destruct (Checked.append_each [] (convert_soup soup)) as [elements r];
        cbn [snd] in Ht; subst r.
      unfold Checked.except_block.
      fold plain_text; rewrite Htext, Hrefused; reflexivity.
Qed.

Lemma fallback_paragraph_is_unprotected_witness :
  @BeautifulSoup CheckedSamples.entity_parser CheckedSamples.escaping_fragment
  = Ok CheckedSamples.escaping_soup
  /\ @accepts CheckedSamples.checks (py "a <b c") = false
  /\ @accepts CheckedSamples.checks (py "a &lt;b c there <b") = false
  /\ fst (@Checked.parse_html_content
            CheckedSamples.entity_parser CheckedSamples.checks
            Samples.generator CheckedSamples.escaping_fragment)
     = Raise (py "Parse error in paragraph: a &lt;b c there <b").
Proof.
  split; [reflexivity|].
  split; [reflexivity|].
  split; [reflexivity|].
  exact (proj2 (@fallback_paragraph_is_unprotected
                  CheckedSamples.entity_parser CheckedSamples.checks
                  Samples.generator CheckedSamples.escaping_fragment)
               eq_refl
               (or_intror (ex_intro _ CheckedSamples.escaping_soup
                                    (conj eq_refl eq_refl)))
               eq_refl eq_refl).
Defined.

(** A block refused in the loop: the blocks before it stay, and the
    stripped text of the whole fragment comes after them. *)
Example refused_block_keeps_the_earlier_ones :
  @Checked.parse_html_content
    CheckedSamples.entity_parser CheckedSamples.checks
    Samples.generator CheckedSamples.refused_second_fragment
  = (Ok [Paragraph (py "ok") ReleaseContent;
         Paragraph (py "oka &lt;b c") ReleaseContent],
     [ErrorLine (py "Error parsing HTML content: ")
                (LibraryError (py "Parse error in paragraph: a <b c"))]).
Proof. reflexivity. Qed.

(** ** C7: list items outside a list, with the checks *)




(** ** C8: the logo, scaled *)

(** C8, as stated, fails on the code: a logo with a height of 100 and a
    width of 0 supplies a dimension, and its width becomes the fallback
    400, not the 0 its aspect ratio gives. *)
Lemma fallback_with_one_dimension : ~ AsStated.logo_width_from_aspect_ratio.
Proof.
  intros H.
  specialize (H CheckedSamples.widthless_svglib Samples.empty_files
                (py "Portal_Logo.svg") 50%float CheckedSamples.widthless_logo
                (Build_Drawing 400 50 []) eq_refl eq_refl eq_refl).
  vm_compute in H.
  discriminate H.
Qed.

(** C8, amended.  A drawing whose width and height are both non-zero is
    scaled to the target height: its contents are scaled once more, by the
    quotient of target height and native height in x and in y alike, its
    width is the native width times that quotient, and its height the
    target height; 400 by 100 at height 50 is 200 wide and scaled by one
    half.  A drawing with a zero width or a zero height is not scaled: it
    gets the fixed width 400 and the target height. *)
Theorem logo_is_scaled_equally_in_both_directions :
  forall (svglib : SvgLib) (fs : FileSystem) (svg_path : str)
         (target_height : float) (drawing : Drawing),
    svg2rlg fs svg_path = Ok (Some drawing) ->
    let factor := (target_height / height drawing)%float in
    exists scaled,
      fst (convert_svg_to_drawing fs svg_path target_height) = Some scaled
      /\ height scaled = target_height
      /\ (float_truthy (width drawing) && float_truthy (height drawing) = true ->
          scalings scaled = scalings drawing ++ [(factor, factor)]
          /\ width scaled = (width drawing * factor)%float)
      /\ (float_truthy (width drawing) && float_truthy (height drawing) = false ->
          scalings scaled = scalings drawing
          /\ width scaled = fallback_width)
      /\ (width drawing = 400%float -> height drawing = 100%float ->
          target_height = 50%float ->
          width scaled = 200%float
          /\ scalings scaled = scalings drawing ++ [(0.5, 0.5)%float]).
Proof.
  intros svglib fs svg_path target_height drawing Hsvg factor.
  unfold convert_svg_to_drawing; rewrite Hsvg.
  destruct (float_truthy (width drawing) && float_truthy (height drawing)) eqn:Hd.
  - eexists; split; [reflexivity|]; cbn [fst height width scalings set_size scale].
    split; [reflexivity|].
    split; [intros _; split; reflexivity|].
    split; [discriminate|].
    intros Hw Hh Ht; subst factor; rewrite Hw, Hh, Ht; split; reflexivity.
  - eexists; split; [reflexivity|]; cbn [fst height width scalings set_size scale].
    split; [reflexivity|].
    split; [discriminate|].
    split; [intros _; split; reflexivity|].
    intros Hw Hh _; rewrite Hw, Hh in Hd; vm_compute in Hd; discriminate Hd.
Qed.

Lemma logo_is_scaled_equally_in_both_directions_witness :
  @svg2rlg Samples.svglib Samples.empty_files (py "Portal_Logo.svg")
  = Ok (Some Samples.logo)
  /\ fst (@convert_svg_to_drawing Samples.svglib Samples.empty_files
                                  (py "Portal_Logo.svg") 50%float)
     = Some (Build_Drawing 200 50 [(0.5, 0.5)]%float).
Proof.
  split; [reflexivity|].
  destruct (@logo_is_scaled_equally_in_both_directions
              Samples.svglib Samples.empty_files (py "Portal_Logo.svg")
              50%float Samples.logo eq_refl)
    as (scaled & Hsome & Hheight & _ & _ & Hsample).
  rewrite Hsome; f_equal.
  destruct (Hsample eq_refl eq_refl eq_refl) as [Hw Hs].
  destruct scaled as [w h sc]; cbn in Hheight, Hw, Hs; subst; reflexivity.
Defined.

(* ================================================================== *)
(** * More on the checked converter *)
(* ================================================================== *)



(** ** List items, with the checks *)

(** A list item with non-blank text that holds a nested list asks for one
    lead item and then for the items of the nested list's direct children,
    in that order.  The lead text is the item's stripped text cut before
    its first colon: a prefix of that text that holds no colon, and the
    whole text when the text holds none.  When ReportLab accepts all of
    them they are appended in that order; when it refuses the lead item,
    nothing of the item is appended. *)
Theorem lead_item_is_text_before_colon :
  forall (checks : ReportLabChecks) (li nested_ul : node),
    truthy (strip (Bs4.get_text li)) = true ->
    Bs4.find (py "ul") li = Some nested_ul ->
    let text := strip (Bs4.get_text li) in
    exists main_text,
      list_item_rule li
      = bullet_item main_text
          :: flat_map nested_item_rule (Bs4.find_all_direct (py "li") nested_ul)
      /\ startswith main_text text = true
      /\ contains [colon] main_text = false
      /\ (contains [colon] text = false -> main_text = text)
      /\ (forallb Checked.constructs (list_item_rule li) = true ->
          forall elements,
            Checked.append_each elements (list_item_rule li)
            = (elements ++ list_item_rule li, None))
      /\ (accepts (bullet_prefix ++ main_text) = false ->
          forall elements,
            Checked.append_each elements (list_item_rule li)
            = (elements, Some (bullet_prefix ++ main_text))).
Proof.
  intros checks li nested_ul Htext Hfind text.
  assert (Hrule : exists main_text,
             list_item_rule li
             = bullet_item main_text
                 :: flat_map nested_item_rule
                             (Bs4.find_all_direct (py "li") nested_ul)
             /\ startswith main_text text = true
             /\ contains [colon] main_text = false
             /\ (contains [colon] text = false -> main_text = text)).
  { unfold list_item_rule; rewrite Htext, Hfind; fold text.
    destruct (contains [colon] text) eqn:Hc.
    - exists (hd [] (split colon text)).
      split; [reflexivity|].
      split; [apply split_hd_prefix|].
      split; [apply split_hd_no_separator | discriminate].
    - exists text.
      split; [reflexivity|].
      split; [apply startswith_refl|].
      split; [exact Hc | reflexivity]. }
  destruct Hrule as (main_text & Hcalls & Hprefix & Hcolon & Hwhole).
  exists main_text.
  split; [exact Hcalls|].
  split; [exact Hprefix|].
  split; [exact Hcolon|].
  split; [exact Hwhole|].
  split.
  - intros Hall elements; apply append_each_all; exact Hall.
  - intros Hrefused elements; rewrite Hcalls.
    cbn [Checked.append_each Checked.rejected bullet_item].
    rewrite Hrefused; reflexivity.
Qed.

Lemma lead_item_is_text_before_colon_witness :
  list_item_rule
    (Tag Samples.li []
         [NavigableString (py "Group A ");
          Tag Samples.ul [] [Tag Samples.li [] [NavigableString (py "X")]]])
  = [bullet_item (py "Group A X"); nested_bullet_item (py "X")].
Proof.
  destruct (@lead_item_is_text_before_colon
              CheckedSamples.checks
              (Tag Samples.li []
                   [NavigableString (py "Group A ");
                    Tag Samples.ul [] [Tag Samples.li [] [NavigableString (py "X")]]])
              (Tag Samples.ul [] [Tag Samples.li [] [NavigableString (py "X")]])
              eq_refl eq_refl)
    as (main_text & Hrule & _ & _ & Hwhole & _).
  rewrite Hrule, (Hwhole eq_refl); reflexivity.
Defined.




(** ** Blank blocks, with the checks *)

Lemma strip_head (s : str) :
  strip s = [] \/ exists c r, strip s = c :: r /\ isspace c = false.
Proof.
  unfold strip.
  destruct (lstrip_head s) as [E | (c & r & E & Hc)]; rewrite E.
  - left; reflexivity.
  - destruct (@rstrip_keeps_head c r Hc) as (r' & E').
    right; exists c, r'; split; [exact E' | exact Hc].
Qed.

Lemma strip_starts_truthy (c : char) (r : str) :
  isspace c = false -> truthy (strip (c :: r)) = true.
Proof.
  intros Hc; unfold strip; rewrite (@lstrip_fixed c r Hc).
  destruct (@rstrip_keeps_head c r Hc) as (r' & E); rewrite E; reflexivity.
Qed.

(** The text before the first colon of a stripped text that is not empty
    is blank only when the text starts with the colon, and it is empty
    then. *)
Lemma lead_text_blank_or_empty (raw : str) :
  truthy (strip raw) = true ->
  let text := strip raw in
  let main_text :=
    if contains [colon] text then hd [] (split colon text) else text in
  truthy (strip main_text) = true
  \/ (main_text = [] /\ startswith [colon] text = true).
Proof.
  intros Htext text main_text; subst main_text text.
  destruct (strip_head raw) as [E | (c & r & E & Hc)];
    [rewrite E in Htext; discriminate|].
  rewrite E.
  destruct (contains [colon] (c :: r));
    [|left; apply strip_starts_truthy; exact Hc].
  cbn [split].
  destruct (N.eqb c colon) eqn:Hcolon.
  - right; split; [reflexivity|].
    cbn [startswith hd]; rewrite N.eqb_sym, Hcolon; reflexivity.
  - left; destruct (split colon r) as [|h t]; cbn [hd];
      apply strip_starts_truthy; exact Hc.
Qed.

Lemma Forall_flat_map_in {A B : Type} (P : B -> Prop) (f : A -> list B)
      (l : list A) :
  (forall a, In a l -> Forall P (f a)) -> Forall P (flat_map f l).
Proof.
  induction l as [|a l IH]; intros H; cbn [flat_map]; [constructor|].
  apply Forall_app; split.
  - apply H; left; reflexivity.
  - apply IH; intros b Hb; apply H; right; exact Hb.
Qed.

(** Every call of the loop stands for a block that is not blank, or is an
    empty lead item. *)
Lemma calls_blank_only_as_lead (soup : node) :
  Forall (fun f => exists b,
              block_of f = Some b
              /\ (Reading.blank b = false \/ Structure.empty_lead_item soup f))
         (convert_soup soup).
Proof.
  unfold convert_soup.
  apply Forall_flat_map_in; intros [ancestors element] Hin.
  unfold convert_element, fst, snd.
  destruct (Bs4.is_tag_named (py "p") element).
  { unfold paragraph_rule.
    destruct (truthy (strip (Bs4.get_text element))) eqn:Ht; [|constructor].
    assert (Hb : truthy (strip (strip (Bs4.get_text element))) = true)
      by (rewrite strip_idempotent; exact Ht).
    destruct (_ && _);
      [|destruct (_ && _)]; repeat constructor;
      eexists; (split; [reflexivity|]); left;
      unfold Reading.blank; cbn [Spec.text_of]; rewrite Hb; reflexivity. }
  destruct (Bs4.name_in _ element).
  { unfold heading_rule.
    destruct (truthy (strip (Bs4.get_text element))) eqn:Ht; [|constructor].
    assert (Hb : truthy (strip (strip (Bs4.get_text element))) = true)
      by (rewrite strip_idempotent; exact Ht).
    destruct (Bs4.is_tag_named _ _); repeat constructor;
      eexists; (split; [reflexivity|]); left;
      unfold Reading.blank; cbn [Spec.text_of]; rewrite Hb; reflexivity. }
  destruct (Bs4.is_tag_named (py "ul") element) eqn:Hul.
  { unfold list_rule.
    apply Forall_flat_map_in; intros li Hli; unfold list_item_rule.
    destruct (truthy (strip (Bs4.get_text li))) eqn:Ht; [|constructor].
    assert (Hb : truthy (strip (strip (Bs4.get_text li))) = true)
      by (rewrite strip_idempotent; exact Ht).
    destruct (Bs4.find (py "ul") li) as [nested_ul|] eqn:Hfind.
    - constructor.
      + eexists; split; [apply block_of_bullet_item|].
        destruct (lead_text_blank_or_empty (Bs4.get_text li) Ht)
          as [Hmain | (Hempty & Hstarts)].
        * left; unfold Reading.blank; cbn [Spec.text_of].
          rewrite Hmain; reflexivity.
        * right; split; [rewrite Hempty; reflexivity|].
          exists ancestors, element, li, nested_ul.
          repeat split; assumption.
      + apply Forall_flat_map; intros nli; unfold nested_item_rule.
        destruct (truthy (strip (Bs4.get_text nli))) eqn:Hn; [|constructor].
        repeat constructor.
        eexists; split; [apply block_of_nested_bullet_item|].
        left; unfold Reading.blank; cbn [Spec.text_of].
        rewrite strip_idempotent, Hn; reflexivity.
    - repeat constructor.
      eexists; split; [apply block_of_bullet_item|].
      left; unfold Reading.blank; cbn [Spec.text_of]; rewrite Hb; reflexivity. }
  destruct (Bs4.is_tag_named (py "li") element); [|constructor].
  unfold orphan_item_rule.
  destruct ancestors as [|parent rest]; [constructor|].
  destruct (negb _); [|constructor].
  destruct (truthy (strip (Bs4.get_text element))) eqn:Ht; [|constructor].
  repeat constructor.
  eexists; split; [apply block_of_bullet_item|].
  left; unfold Reading.blank; cbn [Spec.text_of].
  rewrite strip_idempotent, Ht; reflexivity.
Qed.

Lemma append_each_built {checks : ReportLabChecks} (calls : list Flowable) :
  forall elements : list Flowable,
    exists built rest,
      calls = built ++ rest
      /\ fst (Checked.append_each elements calls) = elements ++ built.
Proof.
  induction calls as [|f calls IH]; intros elements.
  - exists [], []; cbn; rewrite app_nil_r; split; reflexivity.
  - cbn [Checked.append_each].
    destruct (Checked.rejected f).
    + exists [], (f :: calls); cbn; rewrite app_nil_r; split; reflexivity.
    + destruct (IH (elements ++ [f])) as (built & rest & Hcalls & H).
      exists (f :: built), rest; rewrite H, <- app_assoc, Hcalls.
      split; reflexivity.
Qed.

(** Whatever the parser and ReportLab do, every flowable the method
    returns stands for a block of the data model, and the block is not
    blank, with one exception: the lead item of a list item that holds a
    nested list and whose stripped text starts with a colon, which has no
    text at all. *)
Theorem only_an_empty_lead_item_is_blank :
  forall (parser : MarkupParser) (checks : ReportLabChecks) (self : Generator)
         (html : str) (els : list Flowable),
    fst (Checked.parse_html_content self html) = Ok els ->
    Forall (fun f => exists b,
                block_of f = Some b
                /\ (Reading.blank b = false
                    \/ exists soup,
                        BeautifulSoup html = Ok soup
                        /\ Structure.empty_lead_item soup f))
           els.
Proof.
  intros parser checks self html els.
  assert (Hfallback :
            forall (P : Flowable -> Prop) (elements : list Flowable) (e : str),
              Forall P elements ->
              (forall t, truthy (strip t) = true ->
                         P (Paragraph (strip t) ReleaseContent)) ->
              fst (Checked.except_block html elements e) = Ok els ->
              Forall P els).
  { intros P elements e Hels Hplain; unfold Checked.except_block.
    destruct (truthy (strip (re_sub_tags html))) eqn:Ht;
      [destruct (accepts (strip (re_sub_tags html)))|]; cbn [fst]; intros E;
      inversion E; subst; [|exact Hels].
    apply Forall_app; split; [exact Hels|].
    constructor; [apply Hplain; exact Ht | constructor]. }
  assert (Hplain :
            forall t, truthy (strip t) = true ->
                      exists b,
                        block_of (Paragraph (strip t) ReleaseContent) = Some b
                        /\ (Reading.blank b = false
                            \/ exists soup,
                                BeautifulSoup html = Ok soup
                                /\ Structure.empty_lead_item
                                     soup (Paragraph (strip t) ReleaseContent))).
  { intros t Ht; eexists; split; [reflexivity|].
    left; unfold Reading.blank; cbn [Spec.text_of].
    rewrite strip_idempotent, Ht; reflexivity. }
  destruct (truthy html) eqn:Hhtml.
  2:{ unfold Checked.parse_html_content; rewrite Hhtml; cbn [fst].
      intros E; inversion E; constructor. }
  destruct (BeautifulSoup html) as [soup|e] eqn:Hparse;
    rewrite <- Hparse; rewrite <- Hparse in Hplain.
  - rewrite (@checked_parsed parser checks self html soup Hhtml Hparse).
    destruct (@append_each_built checks (convert_soup soup) [])
      as (built & rest & Hcalls & Hbuilt).
    assert (Hall : Forall (fun f => exists b,
                               block_of f = Some b
                               /\ (Reading.blank b = false
                                   \/ exists soup,
                                       BeautifulSoup html = Ok soup
                                       /\ Structure.empty_lead_item soup f))
                          built).
    { pose proof (calls_blank_only_as_lead soup) as H.
      rewrite Hcalls in H; apply Forall_app in H; destruct H as [H _].
      eapply Forall_impl; [|exact H].
      intros f (b & Hb & [Hn | Hlead]); exists b; split; try exact Hb;
        [left; exact Hn | right; exists soup; split; [exact Hparse | exact Hlead]]. }
    destruct (Checked.append_each [] (convert_soup soup)) as [elements [t|]];
      cbn [fst app] in Hbuilt; subst elements.
    + exact (Hfallback _ built (complaint t) Hall Hplain).
    + cbn [fst]; intros E; inversion E; subst; exact Hall.
  - assert (E : Checked.parse_html_content self html
                = Checked.except_block html [] e)
      by (unfold Checked.parse_html_content; rewrite Hhtml, Hparse;
          reflexivity).
    rewrite E.
    exact (Hfallback _ [] e (Forall_nil _) Hplain).
Qed.

Lemma only_an_empty_lead_item_is_blank_witness :
  Forall (fun f => exists b,
              block_of f = Some b
              /\ (Reading.blank b = false
                  \/ exists soup,
                      @BeautifulSoup reference_parser Samples.colon_first_fragment
                      = Ok soup
                      /\ Structure.empty_lead_item soup f))
         (elements (@parse_html_content reference_parser Samples.generator
                      Samples.colon_first_fragment)).
Proof.
  apply (@only_an_empty_lead_item_is_blank
           reference_parser CheckedSamples.checks Samples.generator
           Samples.colon_first_fragment).
  reflexivity.
Defined.

(* ================================================================== *)
(** * [generate_pdf] and [main], with the checks *)
(* ================================================================== *)

Section CheckedRunFacts.

Context {parser : MarkupParser} {checks : ReportLabChecks}
        {svglib : SvgLib} {reportlab : ReportLab}
        {casing : CaseMapping} {yamllib : YamlLib}.



End CheckedRunFacts.


(** A title that ReportLab refuses: the exception leaves [generate_pdf]
    and no file is written. *)
Example refused_title_leaves_no_file :
  let self := {| yaml_file_path := py "/app/newsData.yaml";
                 output_path := py "/app/CCDI_Hub_Release_Notes.pdf";
                 release_notes := [CheckedSamples.beta_entry];
                 total_pages := 0;
                 current_page := 0;
                 logo_drawing := None;
                 pdf_metadata := default_pdf_metadata |} in
  let r := @Checked.generate_pdf reference_parser CheckedSamples.checks
             Samples.svglib Samples.reportlab Samples.casing
             (py "/app") self Samples.input_world in
  fst r = Raise (py "Parse error in paragraph: <a name="
                    ++ quote :: py "release_0" ++ quote
                    :: py "></a>Release <beta")
  /\ files (snd r) (py "/app/CCDI_Hub_Release_Notes.pdf") = None
  /\ console (snd r)
     = [Text (py "Generating PDF...");
        Text (py "Processing release note 1/1: Release <beta")].
Proof. repeat split. Qed.




